(** * The model-benchmarking page of the model browser

    A shallow embedding of
    [ui-model-browser/src/app/pages/model-benchmarking/model-benchmarking.component.ts]
    and the properties of its selection state, its demo catalog, its
    ranking routine and its page controller.

    Conventions of the embedding.
    - A JavaScript [number] that holds a score or an accuracy is an IEEE-754
      binary64 value: Rocq's primitive [float], whose literals are rounded to
      the nearest double exactly as the TypeScript literals are.
    - A [number] that holds an array index, an array length or a rank is a
      natural number (all of them stay far below 2^53, where binary64 is
      exact on integers).
    - A string is a [string]; an array is a [list].  The object literal
      [scoreMap] is a finite map of its own properties, and reading
      [scoreMap[id]] goes through [Js.get]: the own property if there is one,
      else the member inherited from [Object.prototype] under that name
      ([constructor], [toString], ...), else [undefined].
    - An object that the code reads through the property names of
      [RankingRow] is the record of what those reads give, [None] standing
      for [undefined].
    - The component instance is a record; a method is a function on it.  The
      two things a method hands to the host (a subscription to the catalog
      request, a timer) are counted in the enclosing [World].  Time itself
      is not modelled: the answer of the request and the firing of the
      timer (1200 ms after the run) are events that come at some later step
      of the session, after any number of other events. *)

From Stdlib Require Import PrimFloat DecimalString DecimalNat Sorted.
From stdpp Require Import gmap strings list.

Set Warnings "-inexact-float".

(** ** JavaScript primitives used by the component *)

Module Js.

(** [Math.min] on two numbers: NaN if either is NaN, and -0 below +0. *)
Definition Math_min (x y : float) : float :=
  if is_nan x || is_nan y then nan
  else if PrimFloat.ltb x y then x
  else if PrimFloat.ltb y x then y
  else if is_zero x && get_sign x then x else y.

(** [String(n)] (and [`${n}`]) for a non-negative integer below 1e21: its
    decimal digits. *)
Definition toString (n : nat) : string :=
  NilZero.string_of_uint (Nat.to_uint n).

(** [xs[i]] on an array of numbers, followed by arithmetic: an index out of
    range reads [undefined], which arithmetic turns into NaN. *)
Definition numberAt (xs : list float) (i : nat) : float :=
  default nan (xs !! i).

(** [ToNumber] of a numeric property that may be absent: [undefined] gives
    NaN. *)
Definition toNumber (v : option float) : float := default nan v.

(** The property names every object literal inherits from
    [Object.prototype] in a browser. *)
Definition objectPrototypeNames : list string :=
  [ "constructor"; "__defineGetter__"; "__defineSetter__"; "hasOwnProperty";
    "__lookupGetter__"; "__lookupSetter__"; "isPrototypeOf";
    "propertyIsEnumerable"; "toString"; "valueOf"; "__proto__";
    "toLocaleString" ].

(** [obj[key]] on an object literal with the own properties [own]: the own
    property when there is one, else the member inherited from
    [Object.prototype] under that name, else [undefined].  [inherited] is
    how such a member looks to the code that reads the result. *)
Definition get {V : Type} (own : gmap string V) (inherited : V) (key : string)
    : option V :=
  match own !! key with
  | Some v => Some v
  | None =>
      if bool_decide (key ∈ objectPrototypeNames) then Some inherited else None
  end.

Section Sort.
Context {A : Type}.
Variable comparefn : A → A → float.

(** [Array.prototype.sort(comparefn)] is stable (ECMAScript 2019), so for a
    comparator that is consistent on the elements its result is fixed:
    every element is placed behind exactly those it must follow, that is
    those [y] with [comparefn(x, y) > 0]; a NaN or zero result counts as a
    tie and keeps the original order.  For a comparator that is not
    consistent the standard leaves the order to the implementation; this
    insertion order is then one of the orders an engine may give. *)
Fixpoint sort_insert (x : A) (l : list A) : list A :=
  match l with
  | [] => [x]
  | y :: l' =>
      if PrimFloat.ltb 0 (comparefn x y) then y :: sort_insert x l'
      else x :: y :: l'
  end.

Definition sort (l : list A) : list A := foldr sort_insert [] l.
End Sort.

End Js.

(** ** Data model *)

Inductive InputMode := single | dataset.

(** A JSON object whose shape the component never inspects. *)
Definition JsObject := list (string * string).

(** [MLAsset] is declared in [shared/models/ml-asset]; its fields are the
    ones the template literal of [buildDemoAssets] has to fill, plus [id]
    and [name]. *)
Record MLAssetBase := {
  b_version : string;
  b_description : string;
  b_shortDescription : string;
  b_assetType : string;
  b_contentType : string;
  b_byteSize : string;
  b_format : string;
  b_keywords : list string;
  b_tasks : list string;
  b_subtasks : list string;
  b_algorithms : list string;
  b_libraries : list string;
  b_frameworks : list string;
  b_modelType : string;
  b_storageType : string;
  b_fileName : string;
  b_owner : string;
  b_isLocal : bool;
  b_hasContractOffers : bool;
  b_contractOffers : list JsObject;
  b_endpointUrl : string;
  b_participantId : string;
  b_assetData : JsObject;
  b_rawProperties : JsObject;
  b_originator : string
}.

Record MLAsset := {
  id : string;
  name : string;
  version : string;
  description : string;
  shortDescription : string;
  assetType : string;
  contentType : string;
  byteSize : string;
  format : string;
  keywords : list string;
  tasks : list string;
  subtasks : list string;
  algorithms : list string;
  libraries : list string;
  frameworks : list string;
  modelType : string;
  storageType : string;
  fileName : string;
  owner : string;
  isLocal : bool;
  hasContractOffers : bool;
  contractOffers : list JsObject;
  endpointUrl : string;
  participantId : string;
  assetData : JsObject;
  rawProperties : JsObject;
  originator : string
}.

(** An object read through the property names of the interface
    [RankingRow]: every field is what reading that property gives, [None]
    for [undefined].  A row literal of the component has every property but
    the optional [top]; a member inherited from [Object.prototype] has none
    of the seven. *)
Record RankingRow := {
  rank : option nat;
  model : option string;
  score : option float;
  accuracy : option float;
  latency : option string;
  cost : option string;
  top : option bool
}.

(** A row literal [{ rank, model, score, accuracy, latency, cost }]. *)
Definition rowLiteral (r : nat) (m : string) (s a : float) (l c : string)
    : RankingRow :=
  {| rank := Some r; model := Some m; score := Some s; accuracy := Some a;
     latency := Some l; cost := Some c; top := None |}.

(** What [scoreMap[id]] gives for an inherited name: a built-in function
    (for [__proto__], [Object.prototype] itself).  It is truthy, none of the
    seven properties can be read from it, and it has no enumerable property
    of its own for a spread to copy. *)
Definition inheritedMember : RankingRow :=
  {| rank := None; model := None; score := None; accuracy := None;
     latency := None; cost := None; top := None |}.

(** The fields of the component instance. *)
Record Component := {
  inputMode : InputMode;
  sampleInput : string;
  selectedFileName : string;
  isRunning : bool;
  statusMessage : string;
  modelPoolAssets : list MLAsset;
  selectedAssetIds : list string;
  isLoadingAssets : bool;
  assetsError : string;
  rankingRows : list RankingRow
}.

(** The component together with what it has handed to the host and is still
    outstanding: subscriptions to [getMachinelearningAssets()] that have not
    answered, and [window.setTimeout] callbacks that have not fired. *)
Record World := {
  comp : Component;
  subscriptions : nat;
  timeouts : nat
}.

(** ** Field updates ([this.f = v]) *)

Definition set_inputMode (v : InputMode) (c : Component) : Component :=
  {| inputMode := v; sampleInput := sampleInput c;
     selectedFileName := selectedFileName c; isRunning := isRunning c;
     statusMessage := statusMessage c; modelPoolAssets := modelPoolAssets c;
     selectedAssetIds := selectedAssetIds c;
     isLoadingAssets := isLoadingAssets c; assetsError := assetsError c;
     rankingRows := rankingRows c |}.

Definition set_selectedFileName (v : string) (c : Component) : Component :=
  {| inputMode := inputMode c; sampleInput := sampleInput c;
     selectedFileName := v; isRunning := isRunning c;
     statusMessage := statusMessage c; modelPoolAssets := modelPoolAssets c;
     selectedAssetIds := selectedAssetIds c;
     isLoadingAssets := isLoadingAssets c; assetsError := assetsError c;
     rankingRows := rankingRows c |}.

Definition set_isRunning (v : bool) (c : Component) : Component :=
  {| inputMode := inputMode c; sampleInput := sampleInput c;
     selectedFileName := selectedFileName c; isRunning := v;
     statusMessage := statusMessage c; modelPoolAssets := modelPoolAssets c;
     selectedAssetIds := selectedAssetIds c;
     isLoadingAssets := isLoadingAssets c; assetsError := assetsError c;
     rankingRows := rankingRows c |}.

Definition set_statusMessage (v : string) (c : Component) : Component :=
  {| inputMode := inputMode c; sampleInput := sampleInput c;
     selectedFileName := selectedFileName c; isRunning := isRunning c;
     statusMessage := v; modelPoolAssets := modelPoolAssets c;
     selectedAssetIds := selectedAssetIds c;
     isLoadingAssets := isLoadingAssets c; assetsError := assetsError c;
     rankingRows := rankingRows c |}.

Definition set_modelPoolAssets (v : list MLAsset) (c : Component) : Component :=
  {| inputMode := inputMode c; sampleInput := sampleInput c;
     selectedFileName := selectedFileName c; isRunning := isRunning c;
     statusMessage := statusMessage c; modelPoolAssets := v;
     selectedAssetIds := selectedAssetIds c;
     isLoadingAssets := isLoadingAssets c; assetsError := assetsError c;
     rankingRows := rankingRows c |}.

Definition set_selectedAssetIds (v : list string) (c : Component) : Component :=
  {| inputMode := inputMode c; sampleInput := sampleInput c;
     selectedFileName := selectedFileName c; isRunning := isRunning c;
     statusMessage := statusMessage c; modelPoolAssets := modelPoolAssets c;
     selectedAssetIds := v;
     isLoadingAssets := isLoadingAssets c; assetsError := assetsError c;
     rankingRows := rankingRows c |}.

Definition set_isLoadingAssets (v : bool) (c : Component) : Component :=
  {| inputMode := inputMode c; sampleInput := sampleInput c;
     selectedFileName := selectedFileName c; isRunning := isRunning c;
     statusMessage := statusMessage c; modelPoolAssets := modelPoolAssets c;
     selectedAssetIds := selectedAssetIds c;
     isLoadingAssets := v; assetsError := assetsError c;
     rankingRows := rankingRows c |}.

Definition set_assetsError (v : string) (c : Component) : Component :=
  {| inputMode := inputMode c; sampleInput := sampleInput c;
     selectedFileName := selectedFileName c; isRunning := isRunning c;
     statusMessage := statusMessage c; modelPoolAssets := modelPoolAssets c;
     selectedAssetIds := selectedAssetIds c;
     isLoadingAssets := isLoadingAssets c; assetsError := v;
     rankingRows := rankingRows c |}.

Definition set_rankingRows (v : list RankingRow) (c : Component) : Component :=
  {| inputMode := inputMode c; sampleInput := sampleInput c;
     selectedFileName := selectedFileName c; isRunning := isRunning c;
     statusMessage := statusMessage c; modelPoolAssets := modelPoolAssets c;
     selectedAssetIds := selectedAssetIds c;
     isLoadingAssets := isLoadingAssets c; assetsError := assetsError c;
     rankingRows := v |}.

(** [{ ...row, rank: r, top: t }]: the spread copies the enumerable
    properties [row] has of its own, then [rank] and [top] are written. *)
Definition with_rank_top (row : RankingRow) (r : nat) (t : bool) : RankingRow :=
  {| rank := Some r; model := model row; score := score row;
     accuracy := accuracy row; latency := latency row; cost := cost row;
     top := Some t |}.

(** [{ ...base, id: i, name: n }] *)
Definition spread (base : MLAssetBase) (i n : string) : MLAsset :=
  {| id := i; name := n;
     version := b_version base; description := b_description base;
     shortDescription := b_shortDescription base;
     assetType := b_assetType base; contentType := b_contentType base;
     byteSize := b_byteSize base; format := b_format base;
     keywords := b_keywords base; tasks := b_tasks base;
     subtasks := b_subtasks base; algorithms := b_algorithms base;
     libraries := b_libraries base; frameworks := b_frameworks base;
     modelType := b_modelType base; storageType := b_storageType base;
     fileName := b_fileName base; owner := b_owner base;
     isLocal := b_isLocal base;
     hasContractOffers := b_hasContractOffers base;
     contractOffers := b_contractOffers base;
     endpointUrl := b_endpointUrl base;
     participantId := b_participantId base;
     assetData := b_assetData base; rawProperties := b_rawProperties base;
     originator := b_originator base |}.

Definition with_algorithms (v : list string) (a : MLAsset) : MLAsset :=
  {| id := id a; name := name a; version := version a;
     description := description a; shortDescription := shortDescription a;
     assetType := assetType a; contentType := contentType a;
     byteSize := byteSize a; format := format a; keywords := keywords a;
     tasks := tasks a; subtasks := subtasks a; algorithms := v;
     libraries := libraries a; frameworks := frameworks a;
     modelType := modelType a; storageType := storageType a;
     fileName := fileName a; owner := owner a; isLocal := isLocal a;
     hasContractOffers := hasContractOffers a;
     contractOffers := contractOffers a; endpointUrl := endpointUrl a;
     participantId := participantId a; assetData := assetData a;
     rawProperties := rawProperties a; originator := originator a |}.

Definition with_libraries (v : list string) (a : MLAsset) : MLAsset :=
  {| id := id a; name := name a; version := version a;
     description := description a; shortDescription := shortDescription a;
     assetType := assetType a; contentType := contentType a;
     byteSize := byteSize a; format := format a; keywords := keywords a;
     tasks := tasks a; subtasks := subtasks a; algorithms := algorithms a;
     libraries := v; frameworks := frameworks a;
     modelType := modelType a; storageType := storageType a;
     fileName := fileName a; owner := owner a; isLocal := isLocal a;
     hasContractOffers := hasContractOffers a;
     contractOffers := contractOffers a; endpointUrl := endpointUrl a;
     participantId := participantId a; assetData := assetData a;
     rawProperties := rawProperties a; originator := originator a |}.

Definition with_frameworks (v : list string) (a : MLAsset) : MLAsset :=
  {| id := id a; name := name a; version := version a;
     description := description a; shortDescription := shortDescription a;
     assetType := assetType a; contentType := contentType a;
     byteSize := byteSize a; format := format a; keywords := keywords a;
     tasks := tasks a; subtasks := subtasks a; algorithms := algorithms a;
     libraries := libraries a; frameworks := v;
     modelType := modelType a; storageType := storageType a;
     fileName := fileName a; owner := owner a; isLocal := isLocal a;
     hasContractOffers := hasContractOffers a;
     contractOffers := contractOffers a; endpointUrl := endpointUrl a;
     participantId := participantId a; assetData := assetData a;
     rawProperties := rawProperties a; originator := originator a |}.

(** ** The component *)

(** The field initialisers of the class. *)
Definition initialRankingRows : list RankingRow :=
  [ {| rank := Some 1; model := Some "Iris-V2"; score := Some 0.87%float;
       accuracy := Some 0.93%float; latency := Some "280ms";
       cost := Some "$0.011"; top := Some true |};
    rowLiteral 2 "Sentinel-Edge" 0.84 0.91 "260ms" "$0.015";
    rowLiteral 3 "Atlas-Lite" 0.78 0.88 "410ms" "$0.013";
    rowLiteral 4 "Forge-XL" 0.72 0.84 "390ms" "$0.009" ].

(** A property name of the sample JSON text, between double quotes. *)
Definition quoted (s : string) : string :=
  let q := String (Ascii.ascii_of_nat 34) "" in q +:+ s +:+ q.

Definition newComponent : Component :=
  {| inputMode := single;
     sampleInput :=
       "{" +:+ String.concat ", "
         [ quoted "sepal_length" +:+ ": 5.1"; quoted "sepal_width" +:+ ": 3.5";
           quoted "petal_length" +:+ ": 1.4"; quoted "petal_width" +:+ ": 0.2" ]
           +:+ "}";
     selectedFileName := "";
     isRunning := false;
     statusMessage := "Demo mode: actions are simulated for preview only.";
     modelPoolAssets := [];
     selectedAssetIds := [];
     isLoadingAssets := false;
     assetsError := "";
     rankingRows := initialRankingRows |}.

(** [get selectedCount()] *)
Definition selectedCount (c : Component) : nat := length (selectedAssetIds c).

(** [buildDemoAssets()] *)
Definition baseAsset : MLAssetBase :=
  {| b_version := "1.0.0";
     b_description := "Demo benchmark asset";
     b_shortDescription := "Demo benchmark asset";
     b_assetType := "MLModel";
     b_contentType := "application/json";
     b_byteSize := "0";
     b_format := "HTTP";
     b_keywords := ["demo"];
     b_tasks := ["classification"];
     b_subtasks := ["tabular"];
     b_algorithms := ["XGBoost"];
     b_libraries := ["scikit-learn"];
     b_frameworks := ["ONNX"];
     b_modelType := "tabular";
     b_storageType := "HttpData";
     b_fileName := "demo";
     b_owner := "demo";
     b_isLocal := true;
     b_hasContractOffers := false;
     b_contractOffers := [];
     b_endpointUrl := "http://localhost:8080";
     b_participantId := "demo";
     b_assetData := [];
     b_rawProperties := [];
     b_originator := "Local Connector" |}.

Definition buildDemoAssets : list MLAsset :=
  [ with_algorithms ["Logistic Regression"] (spread baseAsset "demo-iris" "Iris-V2");
    with_frameworks ["TensorFlow"] (spread baseAsset "demo-sentinel" "Sentinel-Edge");
    with_libraries ["PyTorch"] (spread baseAsset "demo-atlas" "Atlas-Lite");
    with_algorithms ["Random Forest"] (spread baseAsset "demo-forge" "Forge-XL") ].

(** [loadModelPool()], up to the [subscribe] call: the two flags are written
    at once, the handlers run when the request answers. *)
Definition loadModelPool_start (c : Component) : Component :=
  set_assetsError "" (set_isLoadingAssets true c).

(** The [next] handler of the subscription. *)
Definition loadModelPool_next (assets : list MLAsset) (c : Component) : Component :=
  let c := set_modelPoolAssets assets c in
  let c := set_selectedAssetIds (id <$> take 3 assets) c in
  set_isLoadingAssets false c.

(** The [error] handler of the subscription. *)
Definition loadModelPool_error (c : Component) : Component :=
  let c := set_modelPoolAssets buildDemoAssets c in
  let c := set_selectedAssetIds (id <$> take 3 (modelPoolAssets c)) c in
  let c := set_isLoadingAssets false c in
  set_assetsError "Unable to load live assets. Showing demo catalog." c.

(** [setInputMode(mode)] *)
Definition setInputMode (mode : InputMode) (c : Component) : Component :=
  set_inputMode mode c.

(** [isAssetSelected(asset)] *)
Definition isAssetSelected (asset : MLAsset) (c : Component) : bool :=
  bool_decide (id asset ∈ selectedAssetIds c).

(** [toggleAssetSelection(asset)] *)
Definition toggleAssetSelection (asset : MLAsset) (c : Component) : Component :=
  if isAssetSelected asset c then
    set_selectedAssetIds (filter (λ i, i ≠ id asset) (selectedAssetIds c)) c
  else
    set_selectedAssetIds (selectedAssetIds c ++ [id asset]) c.

(** [getAssetMeta(asset)]: [filter(Boolean)] drops the empty strings. *)
Definition getAssetMeta (asset : MLAsset) : string :=
  let tags :=
    filter (λ t : string, t ≠ "")
           (frameworks asset ++ libraries asset ++ algorithms asset) in
  if decide (length tags = 0) then "Benchmark-ready"
  else String.concat ", " (take 2 tags).

(** [handleFileSelection(event)]: the argument is the name of
    [input.files?.[0]], if there is one. *)
Definition handleFileSelection (file : option string) (c : Component) : Component :=
  set_selectedFileName (default "" file) c.

(** [validateSchema()] *)
Definition validateSchema (c : Component) : Component :=
  set_statusMessage "Schema validated in demo mode. Ready to run ranking." c.

(** *** The ranking routine *)

(** The object literal [scoreMap] of [buildRankingRow]; every entry takes its
    [model] from the asset at hand. *)
Definition scoreMap (asset : MLAsset) : gmap string RankingRow :=
  <[ "asset-user1-credit-model" :=
       rowLiteral 0 (name asset) 0.84 0.91 "310ms" "$0.011" ]>
  (<[ "asset-user1-segmentation-model" :=
       rowLiteral 0 (name asset) 0.82 0.9 "420ms" "$0.016" ]>
  (<[ "asset-user1-fraud-api" :=
       rowLiteral 0 (name asset) 0.88 0.94 "260ms" "$0.014" ]>
  (<[ "asset-user1-sentiment-api" :=
       rowLiteral 0 (name asset) 0.86 0.92 "300ms" "$0.012" ]> ∅))).

Definition fallbackScores : list float := [0.87; 0.85; 0.82; 0.79; 0.76]%float.

(** [buildRankingRow(asset, index)]: whatever [scoreMap[asset.id]] gives is
    an object or a function, hence truthy, so [scoreMap[asset.id] || fallback]
    is that value whenever the read gives one, an entry of the table or an
    inherited member alike; the fallback literal is built only when the read
    gives [undefined]. *)
Definition buildRankingRow (asset : MLAsset) (index : nat) : RankingRow :=
  let score := Js.numberAt fallbackScores (index `mod` length fallbackScores) in
  match Js.get (scoreMap asset) inheritedMember (id asset) with
  | Some row => row
  | None =>
      rowLiteral 0 (name asset) score
        (Js.Math_min 0.95 (score + 0.06))
        (Js.toString (280 + index * 40) +:+ "ms")
        ("$0.0" +:+ Js.toString (12 + index))
  end.

(** The comparator handed to [sort]: [(a, b) => b.score - a.score]; a row
    without [score] makes the difference NaN. *)
Definition byScoreDesc (a b : RankingRow) : float :=
  (Js.toNumber (score b) - Js.toNumber (score a))%float.

(** The assets the timer callback of [runRanking] ranks: the catalog entries
    whose id is selected, in catalog order. *)
Definition selectedAssets (c : Component) : list MLAsset :=
  filter (λ asset, id asset ∈ selectedAssetIds c) (modelPoolAssets c).

(** The rows before sorting. *)
Definition rawRows (assets : list MLAsset) : list RankingRow :=
  imap (λ index asset, buildRankingRow asset index) assets.

(** [assets.map(buildRankingRow).sort(...).map(rank and top)] *)
Definition ranked (assets : list MLAsset) : list RankingRow :=
  imap (λ index row, with_rank_top row (index + 1) (bool_decide (index = 0)))
       (Js.sort byScoreDesc (rawRows assets)).

(** The callback given to [window.setTimeout]; it reads the catalog and the
    selection when it fires. *)
Definition runRanking_timeout (c : Component) : Component :=
  let ranked := ranked (selectedAssets c) in
  let c := set_rankingRows ranked c in
  let c := set_isRunning false c in
  set_statusMessage
    "Demo ranking generated. Replace with live benchmarking when backend is ready." c.

(** [runRanking()]: the new component and whether a timer was set. *)
Definition runRanking (c : Component) : Component * bool :=
  if isRunning c then (c, false)
  else if decide (length (selectedAssetIds c) < 2) then
    (set_statusMessage "Select at least two models to generate a ranking." c, false)
  else
    let c := set_isRunning true c in
    let c := set_statusMessage "Running benchmark in demo mode..." c in
    (c, true).

(** ** The page session *)

(** What can happen to the page: the lifecycle hook, the answers of the
    catalog request, the user's actions on the view, and the timer. *)
Inductive Event :=
| NgOnInit
| CatalogNext (assets : list MLAsset)
| CatalogError
| SetInputMode (mode : InputMode)
| Toggle (asset : MLAsset)
| FileSelection (file : option string)
| ValidateSchema
| RunRanking
| TimerFires.

Definition on_comp (f : Component → Component) (w : World) : World :=
  {| comp := f (comp w); subscriptions := subscriptions w; timeouts := timeouts w |}.

(** One event; [None] when the host cannot deliver it (no request is
    outstanding, no timer is pending). *)
Definition step (e : Event) (w : World) : option World :=
  match e with
  | NgOnInit =>
      Some {| comp := loadModelPool_start (comp w);
              subscriptions := S (subscriptions w); timeouts := timeouts w |}
  | CatalogNext assets =>
      match subscriptions w with
      | 0 => None
      | S n => Some {| comp := loadModelPool_next assets (comp w);
                       subscriptions := n; timeouts := timeouts w |}
      end
  | CatalogError =>
      match subscriptions w with
      | 0 => None
      | S n => Some {| comp := loadModelPool_error (comp w);
                       subscriptions := n; timeouts := timeouts w |}
      end
  | SetInputMode mode => Some (on_comp (setInputMode mode) w)
  | Toggle asset => Some (on_comp (toggleAssetSelection asset) w)
  | FileSelection file => Some (on_comp (handleFileSelection file) w)
  | ValidateSchema => Some (on_comp validateSchema w)
  | RunRanking =>
      let '(c, timer) := runRanking (comp w) in
      Some {| comp := c; subscriptions := subscriptions w;
              timeouts := if timer then S (timeouts w) else timeouts w |}
  | TimerFires =>
      match timeouts w with
      | 0 => None
      | S n => Some {| comp := runRanking_timeout (comp w);
                       subscriptions := subscriptions w; timeouts := n |}
      end
  end.

Definition newWorld : World :=
  {| comp := newComponent; subscriptions := 0; timeouts := 0 |}.

(** The events of a session, oldest first. *)
Fixpoint run (es : list Event) (w : World) : option World :=
  match es with
  | [] => Some w
  | e :: es' => match step e w with Some w' => run es' w' | None => None end
  end.

(** The states a session reaches when every event it takes satisfies
    [allowed]. *)
Inductive reachable (allowed : World → Event → Prop) : World → Prop :=
| reachable_new : reachable allowed newWorld
| reachable_step w e w' :
    reachable allowed w → allowed w e → step e w = Some w' →
    reachable allowed w'.

Definition any_event (w : World) (e : Event) : Prop := True.

(** The view offers the toggle on the cards of the catalog only. *)
Definition toggles_from_catalog (w : World) (e : Event) : Prop :=
  match e with
  | Toggle asset => asset ∈ modelPoolAssets (comp w)
  | _ => True
  end.

(** ** Vocabulary of the properties *)

(** The four keys of [scoreMap]. *)
Definition knownIds : list string :=
  [ "asset-user1-sentiment-api"; "asset-user1-fraud-api";
    "asset-user1-segmentation-model"; "asset-user1-credit-model" ].

(** Every score [buildRankingRow] can give: the four of the table, then the
    five of the fallback cycle. *)
Definition scoreValues : list float :=
  ([0.86; 0.88; 0.82; 0.84]%float) ++ fallbackScores.

(** [b] may stand after [a] on a leaderboard: both have a score, and the
    score of [b] is not higher. *)
Definition scoreGe (a b : RankingRow) : Prop :=
  PrimFloat.leb (Js.toNumber (score b)) (Js.toNumber (score a)) = true.

(** [x] has the same score as [r] (by [===] on numbers). *)
Definition tiesWith (r x : RankingRow) : bool :=
  PrimFloat.eqb (Js.toNumber (score x)) (Js.toNumber (score r)).

(** A row with its [rank] and [top] left out: what the final [map] of a run
    does not touch. *)
Definition unranked (row : RankingRow) : RankingRow :=
  {| rank := None; model := model row; score := score row;
     accuracy := accuracy row; latency := latency row; cost := cost row;
     top := None |}.

(** The row has one of the nine scores [buildRankingRow] writes into a row
    literal. *)
Definition knownScore (row : RankingRow) : Prop :=
  ∃ s, score row = Some s ∧ s ∈ scoreValues.

(** The id is not the name of a member inherited from [Object.prototype]. *)
Definition ordinaryId (i : string) : Prop := i ∉ Js.objectPrototypeNames.

(** None of the assets has the name of an inherited member as its id. *)
Definition ordinaryAssets (assets : list MLAsset) : Prop :=
  Forall (λ asset, ordinaryId (id asset)) assets.

(** The [model] a run shows for an asset: its display name, unless its id
    makes [scoreMap[id]] an inherited member, which has no [model]. *)
Definition shownModel (asset : MLAsset) : option string :=
  if bool_decide (id asset ∈ Js.objectPrototypeNames) then None
  else Some (name asset).

(** The rows of a leaderboard that carry [top: true]. *)
Definition topRows (rows : list RankingRow) : list RankingRow :=
  filter (λ r, top r = Some true) rows.

(** Every selected id is the id of an asset of the loaded catalog. *)
Definition selectionInCatalog (c : Component) : Prop :=
  selectedAssetIds c ⊆ id <$> modelPoolAssets c.

(** The timers pending are exactly the one of the run in progress, if any. *)
Definition oneRunInFlight (w : World) : Prop :=
  timeouts w = if isRunning (comp w) then 1 else 0.

(** The comparator is a consistent descending order on the given scores:
    checked by evaluation on every pair and triple. *)
Definition orderChecks (vs : list float) : bool :=
  forallb (λ sx, forallb (λ sy,
    (if PrimFloat.ltb 0 (sy - sx) then PrimFloat.leb sx sy
     else PrimFloat.leb sy sx)
    && forallb (λ sz,
         implb (PrimFloat.leb sy sx && PrimFloat.leb sz sy) (PrimFloat.leb sz sx)
         && implb (PrimFloat.ltb 0 (sy - sx) && PrimFloat.eqb sx sz)
                  (negb (PrimFloat.eqb sy sz))) vs) vs) vs.

(** A world in which the demo catalog is loaded and its first three assets
    are selected, as after a failed catalog request. *)
Definition demoWorld : World :=
  {| comp := loadModelPool_error newComponent; subscriptions := 0; timeouts := 0 |}.

(** The events of [es], taken in turn from [w], are all deliverable and all
    satisfy [allowed]. *)
Fixpoint permitted (allowed : World → Event → Prop) (es : list Event) (w : World) : Prop :=
  match es with
  | [] => True
  | e :: es' =>
      allowed w e ∧
      match step e w with Some w' => permitted allowed es' w' | None => False end
  end.

(** The page falls back to the demo catalog, the user starts a run and
    unticks the three selected cards before the timer fires. *)
Definition untickWhileRunning : list Event :=
  [NgOnInit; CatalogError; RunRanking]
  ++ (Toggle <$> take 3 buildDemoAssets) ++ [TimerFires].

(** The demo world with a run in progress: the timer is pending. *)
Definition runningDemoWorld : World :=
  {| comp := fst (runRanking (comp demoWorld)); subscriptions := 0; timeouts := 1 |}.

(** A catalog entry with the given id and display name. *)
Definition sampleAsset (i n : string) : MLAsset := spread baseAsset i n.

(** The catalog of the scenario with the second id spelt "sentinent", which
    is not a key of [scoreMap]. *)
Definition fraudAndSentinent : list MLAsset :=
  [ sampleAsset "asset-user1-fraud-api" "Fraud API";
    sampleAsset "asset-user1-sentinent-api" "Sentiment API" ].

(** A catalog entry the demo catalog does not hold. *)
Definition strayAsset : MLAsset := sampleAsset "asset-user1-fraud-api" "Fraud API".

(** The tags [getAssetMeta] summarises: the non-empty ones, frameworks
    first, then libraries, then algorithms. *)
Definition nonEmptyTags (asset : MLAsset) : list string :=
  filter (λ t : string, t ≠ "")
         (frameworks asset ++ libraries asset ++ algorithms asset).

(** The provider answers with catalogs whose ids are pairwise distinct. *)
Definition distinct_catalog_ids (w : World) (e : Event) : Prop :=
  match e with
  | CatalogNext assets => NoDup (id <$> assets)
  | _ => True
  end.

(** Toggles come from the cards of the catalog, and catalogs have distinct
    ids. *)
Definition catalog_session (w : World) (e : Event) : Prop :=
  toggles_from_catalog w e ∧ distinct_catalog_ids w e.

(** The catalog is requested only while no request is outstanding (the page
    requests it once, from [ngOnInit]). *)
Definition one_request_at_a_time (w : World) (e : Event) : Prop :=
  match e with
  | NgOnInit => subscriptions w = 0
  | _ => True
  end.

(** The warning the [error] handler shows. *)
Definition demoCatalogWarning : string :=
  "Unable to load live assets. Showing demo catalog.".

(** An asset whose id is the name of an inherited member. *)
Definition constructorAsset : MLAsset := sampleAsset "constructor" "Constructor".

(** A catalog in which sorting has work to do: an unknown id (0.87 at
    position 0), the segmentation model (0.82), an unknown id at position 2
    (0.82 as well, a tie), and the fraud model (0.88) last. *)
Definition mixedCatalog : list MLAsset :=
  [ sampleAsset "model-a" "Model A";
    sampleAsset "asset-user1-segmentation-model" "Segmentation";
    sampleAsset "model-c" "Model C";
    sampleAsset "asset-user1-fraud-api" "Fraud API" ].

(** The mixed catalog loaded, its fourth card ticked as well, and a run in
    progress. *)
Definition mixedWorld : World :=
  {| comp :=
       fst (runRanking
              (toggleAssetSelection (sampleAsset "asset-user1-fraud-api" "Fraud API")
                 (loadModelPool_next mixedCatalog newComponent)));
     subscriptions := 0; timeouts := 1 |}.

(** A catalog with an asset whose id names an inherited member between an
    unknown id and the fraud model. *)
Definition catalogWithConstructor : list MLAsset :=
  [ sampleAsset "model-a" "Model A"; constructorAsset;
    sampleAsset "asset-user1-fraud-api" "Fraud API" ].

(** ** Facts about [Array.prototype.sort] *)

Section SortFacts.
Context {A : Type} (comparefn : A → A → float).
Implicit Types (x y : A) (l : list A).

Lemma sort_insert_Permutation x l : Js.sort_insert comparefn x l ≡ₚ x :: l.
  Proof.
    induction l as [|y l IH]; simpl; [done|].
    destruct (PrimFloat.ltb 0 (comparefn x y)); [|done].
    rewrite IH. apply Permutation_swap.
  Qed.

Lemma sort_Permutation l : Js.sort comparefn l ≡ₚ l.
  Proof.
    induction l as [|x l IH]; simpl; [done|].
    by rewrite sort_insert_Permutation, IH.
  Qed.

Lemma length_sort l : length (Js.sort comparefn l) = length l.
  Proof. by rewrite sort_Permutation. Qed.

(** The elements under consideration, and the order to establish. *)
Variable P : A → Prop.
Variable R : A → A → Prop.

Lemma sort_Forall l : Forall P l → Forall P (Js.sort comparefn l).
  Proof. by rewrite sort_Permutation. Qed.

Section Ordered.
Hypothesis R_behind :
      ∀ x y, P x → P y → PrimFloat.ltb 0 (comparefn x y) = true → R y x.
Hypothesis R_before :
      ∀ x y, P x → P y → PrimFloat.ltb 0 (comparefn x y) = false → R x y.
Hypothesis R_trans :
      ∀ x y z, P x → P y → P z → R x y → R y z → R x z.

Lemma sort_insert_StronglySorted x l :
      P x → Forall P l → StronglySorted R l →
      StronglySorted R (Js.sort_insert comparefn x l).
    Proof.
      intros Hx. induction l as [|y l IH]; simpl; intros HP HS.
      - repeat constructor.
      - apply Forall_cons in HP as [Hy HP].
        apply StronglySorted_inv in HS as [HS Hyl].
        destruct (PrimFloat.ltb 0 (comparefn x y)) eqn:E.
        + constructor; [by apply IH|].
          rewrite sort_insert_Permutation. constructor; [by apply R_behind|done].
        + constructor; [by constructor|].
          constructor; [by apply R_before|].
          rewrite Forall_forall in Hyl, HP |- *. intros z Hz.
          apply (R_trans x y z); auto.
    Qed.

Lemma sort_StronglySorted l :
      Forall P l → StronglySorted R (Js.sort comparefn l).
    Proof.
      induction l as [|x l IH]; simpl; intros HP; [constructor|].
      apply Forall_cons in HP as [Hx HP].
      apply sort_insert_StronglySorted; auto using sort_Forall.
    Qed.
End Ordered.

Section Stable.
Variable tie : A → A → bool.
Hypothesis tie_behind :
      ∀ r x y, P r → P x → P y →
        PrimFloat.ltb 0 (comparefn x y) = true → tie r x = true → tie r y = false.

Lemma sort_insert_filter r x l :
      P r → P x → Forall P l →
      filter (λ y, tie r y = true) (Js.sort_insert comparefn x l)
      = filter (λ y, tie r y = true) (x :: l).
    Proof.
      intros Hr Hx. induction l as [|y l IH]; simpl; intros HP; [done|].
      apply Forall_cons in HP as [Hy HP].
      destruct (PrimFloat.ltb 0 (comparefn x y)) eqn:E; [|done].
      rewrite (filter_cons _ y), IH by done.
      rewrite !(filter_cons _ x), !(filter_cons _ y).
      destruct (decide (tie r x = true)) as [Hrx|]; [|done].
      rewrite (tie_behind r x y) by done.
      by rewrite !decide_False by done.
    Qed.

    (** Stability: the elements of one tie class come out in the order in
        which they went in. *)
Lemma sort_stable r l :
      P r → Forall P l →
      filter (λ y, tie r y = true) (Js.sort comparefn l)
      = filter (λ y, tie r y = true) l.
    Proof.
      intros Hr. induction l as [|x l IH]; simpl; intros HP; [done|].
      apply Forall_cons in HP as [Hx HP].
      rewrite sort_insert_filter by auto using sort_Forall.
      by rewrite !filter_cons, IH.
    Qed.
End Stable.
End SortFacts.

(** ** Facts about the ranking routine *)

Local Ltac elem_of_concrete :=
  solve [repeat first [apply list_elem_of_here | apply list_elem_of_further]].

Lemma forallb_elem_of {A} (f : A → bool) (l : list A) (x : A) :
  forallb f l = true → x ∈ l → f x = true.
Proof.
  intros H Hx. apply list_elem_of_In in Hx.
  by apply (proj1 (forallb_forall f l) H).
Qed.

Lemma scoreValues_orderChecks : orderChecks scoreValues = true.
Proof. vm_compute. reflexivity. Qed.

Lemma float_neq (x y : float) :
  PrimFloat.eqb x x = true → PrimFloat.eqb x y = false → x ≠ y.
Proof. intros Hx Hxy ->. congruence. Qed.

(** *** Reading the table *)

Lemma scoreMap_None asset k : k ∉ knownIds → scoreMap asset !! k = None.
Proof.
  intros Hk. unfold scoreMap.
  rewrite !lookup_insert_ne; [apply lookup_empty|..];
    intros <-; apply Hk; elem_of_concrete.
Qed.

Lemma scoreMap_Some_rows asset k row :
  scoreMap asset !! k = Some row →
  (k = "asset-user1-credit-model" ∧
   row = rowLiteral 0 (name asset) 0.84 0.91 "310ms" "$0.011") ∨
  (k = "asset-user1-segmentation-model" ∧
   row = rowLiteral 0 (name asset) 0.82 0.9 "420ms" "$0.016") ∨
  (k = "asset-user1-fraud-api" ∧
   row = rowLiteral 0 (name asset) 0.88 0.94 "260ms" "$0.014") ∨
  (k = "asset-user1-sentiment-api" ∧
   row = rowLiteral 0 (name asset) 0.86 0.92 "300ms" "$0.012").
Proof.
  unfold scoreMap. rewrite !lookup_insert_Some, lookup_empty.
  intros [[<- <-]|[_ [[<- <-]|[_ [[<- <-]|[_ [[<- <-]|[_ ?]]]]]]]];
    [by left|by right; left|by do 2 right; left|by do 3 right|done].
Qed.

Lemma scoreMap_Some_known asset k row :
  scoreMap asset !! k = Some row → k ∈ knownIds.
Proof.
  intros H. apply scoreMap_Some_rows in H
    as [[-> _]|[[-> _]|[[-> _]|[-> _]]]]; elem_of_concrete.
Qed.

(** No key of the table is the name of an inherited member. *)
Lemma knownIds_ordinary k : k ∈ knownIds → ordinaryId k.
Proof.
  intros Hk Hproto.
  assert (Forall (λ i, i ∉ Js.objectPrototypeNames) knownIds) as Hall
    by (apply (bool_decide_unpack _); vm_compute; exact I).
  rewrite Forall_forall in Hall. by apply (Hall k).
Qed.

Lemma scoreMap_known_is_Some asset k :
  k ∈ knownIds → is_Some (scoreMap asset !! k).
Proof.
  intros Hk. unfold knownIds in Hk.
  repeat (apply elem_of_cons in Hk as [->|Hk]; [by eexists|]).
  by apply not_elem_of_nil in Hk.
Qed.

(** The three outcomes of [scoreMap[key]]. *)
Lemma get_scoreMap asset k :
  Js.get (scoreMap asset) inheritedMember k =
    if bool_decide (k ∈ knownIds) then scoreMap asset !! k
    else if bool_decide (k ∈ Js.objectPrototypeNames) then Some inheritedMember
    else None.
Proof.
  unfold Js.get. destruct (decide (k ∈ knownIds)) as [Hk|Hk].
  - rewrite (bool_decide_eq_true_2 _ Hk).
    by destruct (scoreMap_known_is_Some asset k Hk) as [row ->].
  - by rewrite (bool_decide_eq_false_2 _ Hk), scoreMap_None.
Qed.

(** *** The rows of [buildRankingRow] *)

Lemma buildRankingRow_sentiment asset index :
  id asset = "asset-user1-sentiment-api" →
  buildRankingRow asset index
  = rowLiteral 0 (name asset) 0.86 0.92 "300ms" "$0.012".
Proof. intros Hid. unfold buildRankingRow, Js.get. rewrite Hid. reflexivity. Qed.

Lemma buildRankingRow_fraud asset index :
  id asset = "asset-user1-fraud-api" →
  buildRankingRow asset index
  = rowLiteral 0 (name asset) 0.88 0.94 "260ms" "$0.014".
Proof. intros Hid. unfold buildRankingRow, Js.get. rewrite Hid. reflexivity. Qed.

Lemma buildRankingRow_segmentation asset index :
  id asset = "asset-user1-segmentation-model" →
  buildRankingRow asset index
  = rowLiteral 0 (name asset) 0.82 0.9 "420ms" "$0.016".
Proof. intros Hid. unfold buildRankingRow, Js.get. rewrite Hid. reflexivity. Qed.

Lemma buildRankingRow_credit asset index :
  id asset = "asset-user1-credit-model" →
  buildRankingRow asset index
  = rowLiteral 0 (name asset) 0.84 0.91 "310ms" "$0.011".
Proof. intros Hid. unfold buildRankingRow, Js.get. rewrite Hid. reflexivity. Qed.

Lemma buildRankingRow_known_lookup asset index :
  id asset ∈ knownIds →
  scoreMap asset !! id asset = Some (buildRankingRow asset index).
Proof.
  intros Hid. unfold buildRankingRow. rewrite get_scoreMap.
  rewrite (bool_decide_eq_true_2 _ Hid).
  by destruct (scoreMap_known_is_Some asset (id asset) Hid) as [row ->].
Qed.

(** An id that names an inherited member gets that member, not a row. *)
Lemma buildRankingRow_inherited asset index :
  id asset ∈ Js.objectPrototypeNames →
  buildRankingRow asset index = inheritedMember.
Proof.
  intros Hid. unfold buildRankingRow. rewrite get_scoreMap.
  rewrite bool_decide_eq_false_2
    by (intros Hk; by apply (knownIds_ordinary _ Hk)).
  by rewrite (bool_decide_eq_true_2 _ Hid).
Qed.

Lemma buildRankingRow_fallback asset index :
  id asset ∉ knownIds → ordinaryId (id asset) →
  buildRankingRow asset index =
    let score := Js.numberAt fallbackScores (index `mod` 5) in
    rowLiteral 0 (name asset) score
      (Js.Math_min 0.95 (score + 0.06))
      (Js.toString (280 + index * 40) +:+ "ms")
      ("$0.0" +:+ Js.toString (12 + index)).
Proof.
  intros Hid Hord. unfold buildRankingRow. rewrite get_scoreMap.
  by rewrite !bool_decide_eq_false_2.
Qed.

Lemma mod_5_cases index :
  index `mod` 5 = 0 ∨ index `mod` 5 = 1 ∨ index `mod` 5 = 2
  ∨ index `mod` 5 = 3 ∨ index `mod` 5 = 4.
Proof.
  pose proof (Nat.mod_upper_bound index 5). lia.
Qed.

Lemma fallback_score_elem_of index :
  Js.numberAt fallbackScores (index `mod` 5) ∈ scoreValues.
Proof.
  destruct (mod_5_cases index) as [Hm|[Hm|[Hm|[Hm|Hm]]]]; rewrite Hm;
    cbn; elem_of_concrete.
Qed.

Lemma fallbackScores_lookup index :
  fallbackScores !! (index `mod` 5)
  = Some (Js.numberAt fallbackScores (index `mod` 5)).
Proof.
  assert (index `mod` 5 < 5) as Hlt by (apply Nat.mod_upper_bound; lia).
  unfold Js.numberAt.
  destruct (fallbackScores !! (index `mod` 5)) eqn:E; [done|].
  apply lookup_ge_None in E. simpl in E. lia.
Qed.

(** The cap of 0.95 is never reached: the fallback accuracy is always the
    sum itself. *)
Lemma fallback_accuracy_uncapped index :
  let score := Js.numberAt fallbackScores (index `mod` 5) in
  Js.Math_min 0.95 (score + 0.06) = (score + 0.06)%float.
Proof.
  destruct (mod_5_cases index) as [Hm|[Hm|[Hm|[Hm|Hm]]]]; rewrite Hm;
    reflexivity.
Qed.

(** What [buildRankingRow] returns, by the kind of id. *)
Lemma buildRankingRow_cases asset index :
  (id asset ∈ knownIds ∧
   scoreMap asset !! id asset = Some (buildRankingRow asset index)) ∨
  (id asset ∈ Js.objectPrototypeNames ∧
   buildRankingRow asset index = inheritedMember) ∨
  ((id asset ∉ knownIds) ∧ ordinaryId (id asset) ∧
   buildRankingRow asset index =
     rowLiteral 0 (name asset)
       (Js.numberAt fallbackScores (index `mod` 5))
       (Js.Math_min 0.95 (Js.numberAt fallbackScores (index `mod` 5) + 0.06))
       (Js.toString (280 + index * 40) +:+ "ms")
       ("$0.0" +:+ Js.toString (12 + index))).
Proof.
  destruct (decide (id asset ∈ knownIds)) as [Hk|Hk].
  - left. split; [done|]. by apply buildRankingRow_known_lookup.
  - destruct (decide (id asset ∈ Js.objectPrototypeNames)) as [Hp|Hp].
    + right. left. split; [done|]. by apply buildRankingRow_inherited.
    + right. right. split; [done|]. split; [done|].
      by apply buildRankingRow_fallback.
Qed.

Lemma buildRankingRow_model asset index :
  model (buildRankingRow asset index) = shownModel asset.
Proof.
  unfold shownModel.
  destruct (buildRankingRow_cases asset index)
    as [[Hk E]|[[Hp ->]|(Hk & Hp & ->)]].
  - rewrite bool_decide_eq_false_2 by (by apply knownIds_ordinary).
    apply scoreMap_Some_rows in E
      as [[_ ->]|[[_ ->]|[[_ ->]|[_ ->]]]]; reflexivity.
  - by rewrite (bool_decide_eq_true_2 _ Hp).
  - by rewrite bool_decide_eq_false_2.
Qed.

Lemma buildRankingRow_score asset index :
  ordinaryId (id asset) → knownScore (buildRankingRow asset index).
Proof.
  intros Hord. unfold knownScore.
  destruct (buildRankingRow_cases asset index)
    as [[Hk E]|[[Hp _]|(Hk & Hp & ->)]].
  - apply scoreMap_Some_rows in E
      as [[_ ->]|[[_ ->]|[[_ ->]|[_ ->]]]];
      (eexists; split; [reflexivity|elem_of_concrete]).
  - by destruct Hord.
  - eexists. split; [reflexivity|]. apply fallback_score_elem_of.
Qed.

(** The rows a run sorts all carry one of the nine known scores, as long as
    no id names an inherited member. *)
Lemma rawRows_knownScore assets :
  ordinaryAssets assets → Forall knownScore (rawRows assets).
Proof.
  intros Hord. apply Forall_forall. intros row Hrow.
  apply elem_of_lookup_imap in Hrow as (index & asset & -> & Hasset).
  apply buildRankingRow_score.
  unfold ordinaryAssets in Hord. rewrite Forall_forall in Hord.
  apply Hord. by eapply list_elem_of_lookup_2.
Qed.

Lemma length_rawRows assets : length (rawRows assets) = length assets.
Proof. apply length_imap. Qed.

Lemma rawRows_model assets : model <$> rawRows assets = shownModel <$> assets.
Proof.
  unfold rawRows. rewrite fmap_imap.
  rewrite (imap_ext _ (const shownModel)); [apply imap_const|].
  intros index asset _. unfold compose, const. cbv beta.
  apply buildRankingRow_model.
Qed.

(** *** The comparator on known scores *)

Lemma byScoreDesc_behind x y :
  knownScore x → knownScore y →
  PrimFloat.ltb 0 (byScoreDesc x y) = true → scoreGe y x.
Proof.
  intros (sx & Ex & Hx) (sy & Ey & Hy). unfold scoreGe, byScoreDesc.
  rewrite Ex, Ey. simpl. intros E.
  pose proof (forallb_elem_of _ _ _ scoreValues_orderChecks Hx) as H1.
  pose proof (forallb_elem_of _ _ _ H1 Hy) as H2. cbv beta in H2.
  apply andb_prop in H2 as [H2 _]. by rewrite E in H2.
Qed.

Lemma byScoreDesc_before x y :
  knownScore x → knownScore y →
  PrimFloat.ltb 0 (byScoreDesc x y) = false → scoreGe x y.
Proof.
  intros (sx & Ex & Hx) (sy & Ey & Hy). unfold scoreGe, byScoreDesc.
  rewrite Ex, Ey. simpl. intros E.
  pose proof (forallb_elem_of _ _ _ scoreValues_orderChecks Hx) as H1.
  pose proof (forallb_elem_of _ _ _ H1 Hy) as H2. cbv beta in H2.
  apply andb_prop in H2 as [H2 _]. by rewrite E in H2.
Qed.

Lemma scoreGe_trans x y z :
  knownScore x → knownScore y → knownScore z →
  scoreGe x y → scoreGe y z → scoreGe x z.
Proof.
  intros (sx & Ex & Hx) (sy & Ey & Hy) (sz & Ez & Hz). unfold scoreGe.
  rewrite Ex, Ey, Ez. simpl. intros Hxy Hyz.
  pose proof (forallb_elem_of _ _ _ scoreValues_orderChecks Hx) as H1.
  pose proof (forallb_elem_of _ _ _ H1 Hy) as H2. cbv beta in H2.
  apply andb_prop in H2 as [_ H2].
  pose proof (forallb_elem_of _ _ _ H2 Hz) as H3. cbv beta in H3.
  apply andb_prop in H3 as [H3 _].
  by rewrite Hxy, Hyz in H3.
Qed.

Lemma tiesWith_behind r x y :
  knownScore r → knownScore x → knownScore y →
  PrimFloat.ltb 0 (byScoreDesc x y) = true →
  tiesWith r x = true → tiesWith r y = false.
Proof.
  intros (sr & Er & Hr) (sx & Ex & Hx) (sy & Ey & Hy).
  unfold tiesWith, byScoreDesc. rewrite Er, Ex, Ey. simpl. intros E Hrx.
  pose proof (forallb_elem_of _ _ _ scoreValues_orderChecks Hx) as H1.
  pose proof (forallb_elem_of _ _ _ H1 Hy) as H2. cbv beta in H2.
  apply andb_prop in H2 as [_ H2].
  pose proof (forallb_elem_of _ _ _ H2 Hr) as H3. cbv beta in H3.
  apply andb_prop in H3 as [_ H3].
  rewrite E, Hrx in H3. simpl in H3. by apply negb_true_iff in H3.
Qed.

Lemma knownScore_le_088 s :
  s ∈ scoreValues → PrimFloat.leb s 0.88 = true
  ∧ (PrimFloat.leb 0.88 s = true → s = 0.88%float)
  ∧ PrimFloat.leb s s = true.
Proof.
  unfold scoreValues, fallbackScores. simpl app. rewrite !elem_of_cons, elem_of_nil.
  intros [->|[->|[->|[->|[->|[->|[->|[->|[->|[]]]]]]]]]];
    (split; [by vm_compute|]); (split; [|by vm_compute]);
    first [done | vm_compute; discriminate].
Qed.

(** *** The leaderboard *)

Lemma filter_nil_intro {A} (P : A → Prop) `{!∀ x, Decision (P x)} (l : list A) :
  (∀ x, x ∈ l → ¬ P x) → filter P l = [].
Proof.
  intros Hnot. destruct (filter P l) as [|x k] eqn:E; [done|].
  assert (x ∈ filter P l) as Hx by (rewrite E; left).
  apply list_elem_of_filter in Hx as [HP Hx]. by destruct (Hnot x Hx).
Qed.

Lemma filter_fmap_unranked (P : RankingRow → Prop) `{!∀ x, Decision (P x)}
    (rows : list RankingRow) :
  (∀ row, P (unranked row) ↔ P row) →
  filter P (unranked <$> rows) = unranked <$> filter P rows.
Proof.
  intros HP. induction rows as [|row rows IH]; [done|].
  rewrite fmap_cons, !filter_cons, IH.
  destruct (decide (P (unranked row))) as [Hu|Hu],
           (decide (P row)) as [Hr|Hr]; try done.
  - destruct Hr. by apply HP.
  - destruct Hu. by apply HP.
Qed.

Lemma length_ranked assets : length (ranked assets) = length assets.
Proof. unfold ranked. by rewrite length_imap, length_sort, length_rawRows. Qed.

Lemma ranked_rank assets :
  rank <$> ranked assets = Some <$> seq 1 (length assets).
Proof.
  unfold ranked. rewrite fmap_imap.
  rewrite (imap_ext _ (λ index _, Some (index + 1))) by done.
  rewrite imap_seq_0, length_sort, length_rawRows.
  rewrite <- (fmap_add_seq 1 0), <- list_fmap_compose.
  apply list_fmap_ext. intros _ n _. simpl. f_equal. lia.
Qed.

Lemma ranked_unranked assets :
  unranked <$> ranked assets
  = unranked <$> Js.sort byScoreDesc (rawRows assets).
Proof.
  unfold ranked. rewrite fmap_imap.
  rewrite (imap_ext _ (const unranked)) by done.
  apply imap_const.
Qed.

Lemma ranked_score assets :
  score <$> ranked assets = score <$> Js.sort byScoreDesc (rawRows assets).
Proof.
  unfold ranked. rewrite fmap_imap.
  rewrite (imap_ext _ (const score)) by done.
  apply imap_const.
Qed.

Lemma ranked_model assets : model <$> ranked assets ≡ₚ shownModel <$> assets.
Proof.
  unfold ranked. rewrite fmap_imap.
  rewrite (imap_ext _ (const model)) by done.
  by rewrite imap_const, sort_Permutation, rawRows_model.
Qed.

Lemma ranked_top_iff assets r :
  r ∈ ranked assets → top r = Some true ↔ rank r = Some 1.
Proof.
  intros Hr. apply elem_of_lookup_imap in Hr as (index & row & -> & _).
  simpl. case_bool_decide; split; intros ?; simplify_eq; first [done | lia].
Qed.

Lemma ranked_head assets r :
  head (ranked assets) = Some r → rank r = Some 1 ∧ top r = Some true.
Proof.
  unfold ranked. destruct (Js.sort byScoreDesc (rawRows assets)); [done|].
  rewrite imap_cons. simpl. by intros [= <-].
Qed.

Lemma ranked_topRows assets : topRows (ranked assets) = take 1 (ranked assets).
Proof.
  unfold ranked, topRows.
  destruct (Js.sort byScoreDesc (rawRows assets)) as [|row rows]; [done|].
  rewrite imap_cons. simpl take. rewrite take_0.
  rewrite filter_cons_True by done. f_equal.
  apply filter_nil_intro. intros r Hr.
  apply elem_of_lookup_imap in Hr as (index & row' & -> & _). by simpl.
Qed.

Lemma StronglySorted_imap_score (f : nat → RankingRow → RankingRow) rows :
  (∀ index row, score (f index row) = score row) →
  StronglySorted scoreGe rows → StronglySorted scoreGe (imap f rows).
Proof.
  intros Hf HS. revert f Hf.
  induction HS as [|row rows HS IH Hrow]; intros f Hf; [constructor|].
  rewrite imap_cons. constructor.
  - apply IH. intros index r. apply Hf.
  - rewrite Forall_forall in Hrow |- *. intros r Hr.
    apply elem_of_lookup_imap in Hr as (index & r' & -> & Hr').
    unfold scoreGe, compose. rewrite !Hf.
    apply Hrow. by eapply list_elem_of_lookup_2.
Qed.

Lemma ranked_StronglySorted assets :
  ordinaryAssets assets → StronglySorted scoreGe (ranked assets).
Proof.
  intros Hord. unfold ranked. apply StronglySorted_imap_score; [done|].
  apply (sort_StronglySorted byScoreDesc knownScore scoreGe).
  - apply byScoreDesc_behind.
  - apply byScoreDesc_before.
  - apply scoreGe_trans.
  - by apply rawRows_knownScore.
Qed.

Lemma ranked_stable assets r :
  ordinaryAssets assets → r ∈ rawRows assets →
  filter (λ x, tiesWith r x = true) (unranked <$> ranked assets)
  = filter (λ x, tiesWith r x = true) (unranked <$> rawRows assets).
Proof.
  intros Hord Hr. rewrite ranked_unranked.
  rewrite !filter_fmap_unranked by done. f_equal.
  pose proof (rawRows_knownScore assets Hord) as HP.
  apply (sort_stable byScoreDesc knownScore tiesWith);
    [apply tiesWith_behind| |done].
  rewrite Forall_forall in HP. by apply HP.
Qed.

Lemma ranked_inv assets r :
  r ∈ ranked assets →
  ∃ asset index, asset ∈ assets
    ∧ unranked r = unranked (buildRankingRow asset index).
Proof.
  intros Hr. apply elem_of_lookup_imap in Hr as (k & row & -> & Hrow).
  apply list_elem_of_lookup_2 in Hrow.
  rewrite (sort_Permutation byScoreDesc) in Hrow.
  apply elem_of_lookup_imap in Hrow as (index & asset & -> & Hasset).
  exists asset, index. split; [by eapply list_elem_of_lookup_2|done].
Qed.

Lemma ranked_knownScore assets r :
  ordinaryAssets assets → r ∈ ranked assets → knownScore r.
Proof.
  intros Hord Hr. apply ranked_inv in Hr as (asset & index & Hasset & Heq).
  unfold knownScore. change (score r) with (score (unranked r)). rewrite Heq.
  apply buildRankingRow_score.
  unfold ordinaryAssets in Hord. rewrite Forall_forall in Hord. by apply Hord.
Qed.

Lemma ranked_head_highest assets r r' :
  ordinaryAssets assets →
  head (ranked assets) = Some r → r' ∈ ranked assets → scoreGe r r'.
Proof.
  intros Hord Hhead Hr'.
  pose proof (ranked_StronglySorted assets Hord) as HS.
  apply head_Some in Hhead as [rows E]. rewrite E in HS.
  assert (r ∈ ranked assets) as Hr by (rewrite E; left). rewrite E in Hr'.
  apply StronglySorted_inv in HS as [_ Hall].
  apply elem_of_cons in Hr' as [->|Hr'].
  - destruct (ranked_knownScore assets r Hord Hr) as (s & Es & Hs).
    unfold scoreGe. rewrite Es. simpl. by apply knownScore_le_088.
  - rewrite Forall_forall in Hall. by apply Hall.
Qed.

(** *** The selection resolved against the catalog *)

Lemma fmap_id_filter (ids : list string) (assets : list MLAsset) :
  id <$> filter (λ asset, id asset ∈ ids) assets
  = filter (λ i, i ∈ ids) (id <$> assets).
Proof.
  induction assets as [|asset assets IH]; [done|].
  rewrite fmap_cons, !filter_cons, <- IH. by case_decide.
Qed.

Lemma selectedAssets_resolve c i :
  selectionInCatalog c → i ∈ selectedAssetIds c →
  ∃ asset, asset ∈ selectedAssets c ∧ id asset = i.
Proof.
  intros Hin Hi. pose proof (Hin i Hi) as Hpool.
  apply list_elem_of_fmap in Hpool as (asset & -> & Hasset).
  exists asset. split; [|done].
  by apply list_elem_of_filter.
Qed.

Lemma length_selectedAssets c :
  selectionInCatalog c →
  NoDup (id <$> modelPoolAssets c) → NoDup (selectedAssetIds c) →
  length (selectedAssets c) = length (selectedAssetIds c).
Proof.
  intros Hin Hpool Hsel. unfold selectedAssets.
  rewrite <- (length_fmap id), fmap_id_filter.
  apply Permutation_length, NoDup_Permutation; [by apply NoDup_filter|done|].
  intros i. rewrite list_elem_of_filter. split; [by intros [? _]|].
  intros Hi. split; [done|]. by apply Hin.
Qed.

(** *** Steps of the session *)

Lemma step_RunRanking_accepted w :
  isRunning (comp w) = false → 2 ≤ length (selectedAssetIds (comp w)) →
  step RunRanking w =
    Some {| comp := set_statusMessage "Running benchmark in demo mode..."
                      (set_isRunning true (comp w));
            subscriptions := subscriptions w;
            timeouts := S (timeouts w) |}.
Proof.
  intros Hrun Hlen. unfold step, runRanking. rewrite Hrun.
  by rewrite decide_False by lia.
Qed.

Lemma step_TimerFires w w' :
  step TimerFires w = Some w' →
  comp w' = runRanking_timeout (comp w) ∧ S (timeouts w') = timeouts w
  ∧ subscriptions w' = subscriptions w.
Proof.
  unfold step. destruct (timeouts w); [done|]. by intros [= <-].
Qed.

Lemma reachable_run allowed es w w' :
  reachable allowed w → permitted allowed es w → run es w = Some w' →
  reachable allowed w'.
Proof.
  revert w. induction es as [|e es IH]; simpl; intros w Hw Hes Hrun.
  - by simplify_eq.
  - destruct Hes as [He Hes]. destruct (step e w) as [w1|] eqn:E; [|done].
    apply (IH w1); [|done..]. by eapply reachable_step.
Qed.

(** ** The claims about a run *)

(** C1. For every selection of at least two ids that are all ids of catalog
    assets, a run (accepted, then completed by its timer) produces a
    leaderboard with exactly one row per selected asset: its rows, rank and
    [top] apart, are the values built for the selected catalog assets, each
    once, in some order; so there are as many rows as selected catalog
    assets, showing their models, at least one row per selected id, and as
    many rows as selected ids when no id is repeated.  The [rank] fields are
    1, 2, ..., n in list order. *)
Theorem C1_run_ranks_each_selected_asset (w : World) :
  isRunning (comp w) = false →
  2 ≤ length (selectedAssetIds (comp w)) →
  selectionInCatalog (comp w) →
  ∃ w1 w2,
    step RunRanking w = Some w1 ∧ isRunning (comp w1) = true ∧
    timeouts w1 = S (timeouts w) ∧
    step TimerFires w1 = Some w2 ∧
    let rows := rankingRows (comp w2) in
    let chosen := selectedAssets (comp w) in
    unranked <$> rows ≡ₚ unranked <$> rawRows chosen ∧
    length rows = length chosen ∧
    model <$> rows ≡ₚ shownModel <$> chosen ∧
    rank <$> rows = Some <$> seq 1 (length rows) ∧
    (∀ i, i ∈ selectedAssetIds (comp w) →
          ∃ asset, asset ∈ chosen ∧ id asset = i) ∧
    0 < length rows ∧
    (NoDup (id <$> modelPoolAssets (comp w)) →
     NoDup (selectedAssetIds (comp w)) →
     length rows = length (selectedAssetIds (comp w))).
Proof.
  intros Hrun Hlen Hin. eexists _, _.
  split; [by apply step_RunRanking_accepted|].
  split; [done|]. split; [done|]. split; [done|].
  cbv zeta. cbn [comp runRanking_timeout].
  change (rankingRows _) with (ranked (selectedAssets (comp w))).
  rewrite length_ranked.
  split; [by rewrite ranked_unranked, sort_Permutation|].
  split; [done|]. split; [apply ranked_model|]. split; [apply ranked_rank|].
  split; [intros i; by apply selectedAssets_resolve|].
  split; [|by apply length_selectedAssets].
  destruct (selectedAssetIds (comp w)) as [|i ids] eqn:E; [simpl in Hlen; lia|].
  destruct (selectedAssets_resolve (comp w) i Hin) as (asset & Hasset & _).
  { rewrite E. left. }
  destruct (selectedAssets (comp w)); [by apply not_elem_of_nil in Hasset|].
  simpl. lia.
Qed.

(** C1 on the demo catalog with its default selection of three. *)
Lemma C1_run_demo_selection :
  ∃ w1 w2,
    step RunRanking demoWorld = Some w1 ∧ step TimerFires w1 = Some w2 ∧
    length (rankingRows (comp w2)) = 3 ∧
    rank <$> rankingRows (comp w2) = [Some 1; Some 2; Some 3].
Proof.
  destruct (C1_run_ranks_each_selected_asset demoWorld)
    as (w1 & w2 & Hrun & _ & _ & Hfire & _ & Hlen & _ & Hrank & _).
  - reflexivity.
  - simpl. lia.
  - unfold selectionInCatalog. apply (bool_decide_unpack _).
    vm_compute. exact I.
  - exists w1, w2. cbv zeta in Hlen, Hrank. rewrite Hlen in Hrank.
    split; [exact Hrun|]. split; [exact Hfire|].
    split; [exact Hlen|exact Hrank].
Defined.

(** C2, first failing run.  The two-model guard is checked when the run is
    started, but the timer callback reads the selection again when it fires:
    a selection emptied in between ends in a leaderboard with no row at all,
    hence with no row carrying [top = true]. *)
Lemma C2_untick_while_running_leaves_no_top_row :
  ∃ w, run untickWhileRunning newWorld = Some w ∧
       reachable toggles_from_catalog w ∧
       rankingRows (comp w) = [] ∧
       length (topRows (rankingRows (comp w))) = 0.
Proof.
  eexists. split; [vm_compute; reflexivity|].
  split; [|split; vm_compute; reflexivity].
  apply (reachable_run _ untickWhileRunning newWorld);
    [constructor| |vm_compute; reflexivity].
  vm_compute. repeat split;
    repeat first [apply list_elem_of_here | apply list_elem_of_further].
Qed.

(** C2, second failing run.  An asset whose id names an inherited member
    gets that member as its row; it has no score, every comparison with it
    is NaN, and the leaderboard is not in score order: here the row marked
    top scores 0.87 while the third row scores 0.88. *)
Lemma leaderboard_with_inherited_id_is_not_sorted :
  score <$> ranked catalogWithConstructor
    = [Some 0.87%float; None; Some 0.88%float] ∧
  model <$> ranked catalogWithConstructor
    = [Some "Model A"; None; Some "Fraud API"] ∧
  top <$> ranked catalogWithConstructor
    = [Some true; Some false; Some false] ∧
  ¬ StronglySorted scoreGe (ranked catalogWithConstructor).
Proof.
  split; [vm_compute; reflexivity|]. split; [vm_compute; reflexivity|].
  split; [vm_compute; reflexivity|].
  intros HS. apply StronglySorted_inv in HS as [_ Hall].
  apply Forall_cons in Hall as [Hsecond _].
  vm_compute in Hsecond. discriminate Hsecond.
Qed.

(** C3. For an asset whose id is one of the four keys of the table, the raw
    row is the table's entry, whatever the position [index]: the table's
    score, accuracy, latency and cost verbatim, with [model] taken from the
    asset's own display name. *)
Theorem C3_known_id_row_is_table_entry (asset : MLAsset) (index : nat) :
  id asset ∈ knownIds →
  let row := buildRankingRow asset index in
  scoreMap asset !! id asset = Some row ∧
  model row = Some (name asset) ∧
  (∀ index', buildRankingRow asset index' = row) ∧
  (id asset = "asset-user1-sentiment-api" →
     (score row, accuracy row, latency row, cost row)
     = (Some 0.86%float, Some 0.92%float, Some "300ms", Some "$0.012")) ∧
  (id asset = "asset-user1-fraud-api" →
     (score row, accuracy row, latency row, cost row)
     = (Some 0.88%float, Some 0.94%float, Some "260ms", Some "$0.014")) ∧
  (id asset = "asset-user1-segmentation-model" →
     (score row, accuracy row, latency row, cost row)
     = (Some 0.82%float, Some 0.9%float, Some "420ms", Some "$0.016")) ∧
  (id asset = "asset-user1-credit-model" →
     (score row, accuracy row, latency row, cost row)
     = (Some 0.84%float, Some 0.91%float, Some "310ms", Some "$0.011")).
Proof.
  intros Hid. cbv zeta.
  split; [by apply buildRankingRow_known_lookup|].
  split.
  { rewrite buildRankingRow_model. unfold shownModel.
    by rewrite bool_decide_eq_false_2 by (by apply knownIds_ordinary). }
  split.
  { intros index'.
    pose proof (buildRankingRow_known_lookup asset index Hid) as H1.
    pose proof (buildRankingRow_known_lookup asset index' Hid) as H2.
    congruence. }
  split_and!; intros Heq.
  - by rewrite (buildRankingRow_sentiment asset index Heq).
  - by rewrite (buildRankingRow_fraud asset index Heq).
  - by rewrite (buildRankingRow_segmentation asset index Heq).
  - by rewrite (buildRankingRow_credit asset index Heq).
Qed.

(** C3 on an asset with the id of the credit model, at position 7. *)
Lemma C3_credit_model_at_index_7 :
  let asset := sampleAsset "asset-user1-credit-model" "Credit scoring" in
  let row := buildRankingRow asset 7 in
  model row = Some "Credit scoring" ∧
  (score row, accuracy row, latency row, cost row)
  = (Some 0.84%float, Some 0.91%float, Some "310ms", Some "$0.011").
Proof.
  pose proof (C3_known_id_row_is_table_entry
                (sampleAsset "asset-user1-credit-model" "Credit scoring") 7) as H.
  cbv zeta in *. destruct H as (_ & Hmodel & _ & _ & _ & _ & Hcredit).
  - apply (bool_decide_unpack _). vm_compute. exact I.
  - split; [exact Hmodel|]. apply Hcredit. reflexivity.
Defined.

(** C4, failing input.  The id [constructor] is not a key of the table, yet
    [scoreMap["constructor"]] is the inherited [Object] function, which is
    truthy: [buildRankingRow] returns it and never builds the fallback row,
    so there is no score 0.87, no accuracy, no latency and no cost to read,
    and no model either. *)
Lemma C4_inherited_id_gets_no_fallback_row :
  (id constructorAsset ∉ knownIds) ∧
  scoreMap constructorAsset !! id constructorAsset = None ∧
  Js.get (scoreMap constructorAsset) inheritedMember (id constructorAsset)
    = Some inheritedMember ∧
  buildRankingRow constructorAsset 0 = inheritedMember ∧
  fallbackScores !! (0 `mod` 5) = Some 0.87%float ∧
  score (buildRankingRow constructorAsset 0) = None ∧
  accuracy (buildRankingRow constructorAsset 0) = None ∧
  latency (buildRankingRow constructorAsset 0) = None ∧
  cost (buildRankingRow constructorAsset 0) = None ∧
  model (buildRankingRow constructorAsset 0) = None.
Proof.
  split; [apply (bool_decide_unpack _); vm_compute; exact I|].
  split_and!; vm_compute; reflexivity.
Qed.

(** C5 (as stated) fails: with the id [asset-user1-sentinent-api] the second
    asset is not found in the table and gets a fallback score, 0.85 when it
    stands second in the catalog and 0.87 when it stands first, never 0.86;
    the fraud asset is still ranked first. *)
Lemma C5_sentinent_id_does_not_score_086 :
  (∃ w, run [NgOnInit; CatalogNext fraudAndSentinent; RunRanking; TimerFires]
            newWorld = Some w ∧
        model <$> rankingRows (comp w)
          = [Some "Fraud API"; Some "Sentiment API"] ∧
        score <$> rankingRows (comp w) = [Some 0.88%float; Some 0.85%float] ∧
        Some 0.86%float ∉ (score <$> rankingRows (comp w))) ∧
  (∃ w, run [NgOnInit; CatalogNext (reverse fraudAndSentinent); RunRanking;
             TimerFires] newWorld = Some w ∧
        model <$> rankingRows (comp w)
          = [Some "Fraud API"; Some "Sentiment API"] ∧
        score <$> rankingRows (comp w) = [Some 0.88%float; Some 0.87%float] ∧
        Some 0.86%float ∉ (score <$> rankingRows (comp w))).
Proof.
  split; eexists; (split; [vm_compute; reflexivity|]);
    (split; [vm_compute; reflexivity|]);
    (split; [vm_compute; reflexivity|]).
  - change (Some 0.86%float ∉ [Some 0.88%float; Some 0.85%float]).
    rewrite !not_elem_of_cons. split_and!; [..|apply not_elem_of_nil];
      intros [= Heq]; revert Heq; by apply float_neq.
  - change (Some 0.86%float ∉ [Some 0.88%float; Some 0.87%float]).
    rewrite !not_elem_of_cons. split_and!; [..|apply not_elem_of_nil];
      intros [= Heq]; revert Heq; by apply float_neq.
Qed.

Lemma two_elements_length {A} (l : list A) (x y : A) :
  x ∈ l → y ∈ l → x ≠ y → 2 ≤ length l.
Proof.
  destruct l as [|a [|b l]]; simpl; intros Hx Hy Hne; [|exfalso|lia].
  - by apply not_elem_of_nil in Hx.
  - apply list_elem_of_singleton in Hx, Hy. congruence.
Qed.

(** C5 (amended). If a run is invoked while the selected catalog assets are
    two, with ids [asset-user1-fraud-api] and [asset-user1-sentiment-api]
    (the key as the table spells it), in either catalog order, then the
    first scores 0.88 and the second 0.86, and the leaderboard puts the
    fraud asset at rank 1 with [top = true] and the sentiment asset at
    rank 2 with [top = false]. *)
Theorem C5_fraud_ranks_above_sentiment (w : World) (fraud sentiment : MLAsset) :
  isRunning (comp w) = false →
  id fraud = "asset-user1-fraud-api" →
  id sentiment = "asset-user1-sentiment-api" →
  selectedAssets (comp w) = [fraud; sentiment]
  ∨ selectedAssets (comp w) = [sentiment; fraud] →
  ∃ w1 w2,
    step RunRanking w = Some w1 ∧ step TimerFires w1 = Some w2 ∧
    rankingRows (comp w2) =
      [ {| rank := Some 1; model := Some (name fraud);
           score := Some 0.88%float; accuracy := Some 0.94%float;
           latency := Some "260ms"; cost := Some "$0.014";
           top := Some true |};
        {| rank := Some 2; model := Some (name sentiment);
           score := Some 0.86%float; accuracy := Some 0.92%float;
           latency := Some "300ms"; cost := Some "$0.012";
           top := Some false |} ].
Proof.
  intros Hrun Hf Hs Hsel.
  assert (fraud ∈ selectedAssets (comp w) ∧ sentiment ∈ selectedAssets (comp w))
    as [Hfin Hsin].
  { destruct Hsel as [-> | ->]; split;
      repeat first [apply list_elem_of_here | apply list_elem_of_further]. }
  apply list_elem_of_filter in Hfin as [Hfin _].
  apply list_elem_of_filter in Hsin as [Hsin _].
  assert (2 ≤ length (selectedAssetIds (comp w))) as Hlen.
  { apply (two_elements_length _ (id fraud) (id sentiment)); [done..|].
    rewrite Hf, Hs. discriminate. }
  eexists _, _. split; [by apply step_RunRanking_accepted|].
  split; [done|]. cbn [comp runRanking_timeout].
  change (rankingRows _) with (ranked (selectedAssets (comp w))).
  destruct Hsel as [-> | ->]; unfold ranked, rawRows; rewrite !imap_cons;
    unfold compose; cbn [imap];
    rewrite (buildRankingRow_fraud fraud _ Hf),
            (buildRankingRow_sentiment sentiment _ Hs); reflexivity.
Qed.

(** C5 (amended) on a catalog that lists the sentiment asset first. *)
Lemma C5_fraud_and_sentiment_catalog :
  let pool := [ sampleAsset "asset-user1-sentiment-api" "Sentiment API";
                sampleAsset "asset-user1-fraud-api" "Fraud API" ] in
  let w := {| comp := loadModelPool_next pool newComponent;
              subscriptions := 0; timeouts := 0 |} in
  ∃ w1 w2,
    step RunRanking w = Some w1 ∧ step TimerFires w1 = Some w2 ∧
    rankingRows (comp w2) =
      [ {| rank := Some 1; model := Some "Fraud API";
           score := Some 0.88%float; accuracy := Some 0.94%float;
           latency := Some "260ms"; cost := Some "$0.014";
           top := Some true |};
        {| rank := Some 2; model := Some "Sentiment API";
           score := Some 0.86%float; accuracy := Some 0.92%float;
           latency := Some "300ms"; cost := Some "$0.012";
           top := Some false |} ].
Proof.
  cbv zeta.
  apply (C5_fraud_ranks_above_sentiment _
           (sampleAsset "asset-user1-fraud-api" "Fraud API")
           (sampleAsset "asset-user1-sentiment-api" "Sentiment API")).
  - reflexivity.
  - reflexivity.
  - reflexivity.
  - right. vm_compute. reflexivity.
Defined.
(** *** The selection *)

Lemma selectedAssetIds_toggle asset c :
  selectedAssetIds (toggleAssetSelection asset c) =
    if bool_decide (id asset ∈ selectedAssetIds c)
    then filter (λ i, i ≠ id asset) (selectedAssetIds c)
    else selectedAssetIds c ++ [id asset].
Proof.
  unfold toggleAssetSelection, isAssetSelected.
  by destruct (bool_decide (id asset ∈ selectedAssetIds c)).
Qed.

Lemma toggle_frame asset c :
  modelPoolAssets (toggleAssetSelection asset c) = modelPoolAssets c
  ∧ isRunning (toggleAssetSelection asset c) = isRunning c
  ∧ rankingRows (toggleAssetSelection asset c) = rankingRows c
  ∧ statusMessage (toggleAssetSelection asset c) = statusMessage c.
Proof.
  unfold toggleAssetSelection. by destruct (isAssetSelected asset c).
Qed.

Lemma filter_ne_app_absent (i : string) (ids : list string) :
  i ∉ ids → filter (λ j, j ≠ i) (ids ++ [i]) = ids.
Proof.
  intros Hi. rewrite filter_app, filter_cons_False, filter_nil, app_nil_r
    by (intros Hne; by apply Hne).
  induction ids as [|j ids IH]; [done|].
  apply not_elem_of_cons in Hi as [Hne Hi].
  rewrite filter_cons_True by done. by rewrite IH.
Qed.

(** C6. Toggling an asset twice in succession leaves the membership of the
    selection as it was: an id is selected afterwards exactly if it was
    selected before.  One toggle removes the id if it is present and appends
    it at the end otherwise, so it flips the membership of that id; when the
    selection has no repeated id the two toggles give back the same ids up
    to order. *)
Theorem C6_toggle_twice_restores_membership
    (asset : MLAsset) (c : Component) (i : string) :
  (i ∈ selectedAssetIds (toggleAssetSelection asset (toggleAssetSelection asset c))
   ↔ i ∈ selectedAssetIds c)
  ∧ selectedAssetIds (toggleAssetSelection asset c) =
      (if bool_decide (id asset ∈ selectedAssetIds c)
       then filter (λ j, j ≠ id asset) (selectedAssetIds c)
       else selectedAssetIds c ++ [id asset])
  ∧ (id asset ∈ selectedAssetIds (toggleAssetSelection asset c)
     ↔ id asset ∉ selectedAssetIds c)
  ∧ (NoDup (selectedAssetIds c) →
     selectedAssetIds (toggleAssetSelection asset (toggleAssetSelection asset c))
     ≡ₚ selectedAssetIds c).
Proof.
  rewrite !selectedAssetIds_toggle.
  destruct (decide (id asset ∈ selectedAssetIds c)) as [Hin|Hout].
  - rewrite (bool_decide_eq_true_2 _ Hin).
    assert (id asset ∉ filter (λ j, j ≠ id asset) (selectedAssetIds c)) as Hgone.
    { rewrite list_elem_of_filter. by intros [Hne _]. }
    rewrite (bool_decide_eq_false_2 _ Hgone).
    split_and!; [|done|by split|].
    + rewrite elem_of_app, list_elem_of_filter, list_elem_of_singleton.
      split; [intros [[_ ?]| ->]; done|].
      intros Hi. destruct (decide (i = id asset)); [by right|by left].
    + intros Hnd. apply NoDup_Permutation; [|done|].
      * apply NoDup_app. split; [by apply NoDup_filter|].
        split; [|apply NoDup_singleton].
        intros j Hj ->%list_elem_of_singleton. by apply Hgone.
      * intros j.
        rewrite elem_of_app, list_elem_of_filter, list_elem_of_singleton.
        split; [intros [[_ ?]| ->]; done|].
        intros Hj. destruct (decide (j = id asset)); [by right|by left].
  - rewrite (bool_decide_eq_false_2 _ Hout).
    assert (id asset ∈ selectedAssetIds c ++ [id asset]) as Hnow.
    { apply elem_of_app. right. left. }
    rewrite (bool_decide_eq_true_2 _ Hnow), filter_ne_app_absent by done.
    split_and!; done.
Qed.

(** *** Loading the catalog *)

Lemma take_subseteq {A} (n : nat) (l : list A) : take n l ⊆ l.
Proof.
  intros x Hx. rewrite <- (take_drop n l). apply elem_of_app. by left.
Qed.

Lemma loadModelPool_next_selectionInCatalog assets c :
  selectionInCatalog (loadModelPool_next assets c).
Proof.
  unfold selectionInCatalog. simpl. intros i Hi.
  apply list_elem_of_fmap in Hi as (asset & -> & Hasset).
  apply list_elem_of_fmap_2. by apply (take_subseteq 3).
Qed.

Lemma loadModelPool_error_selectionInCatalog c :
  selectionInCatalog (loadModelPool_error c).
Proof.
  change ((id <$> take 3 buildDemoAssets) ⊆ id <$> buildDemoAssets).
  intros i Hi. apply list_elem_of_fmap in Hi as (asset & -> & Hasset).
  apply list_elem_of_fmap_2. by apply (take_subseteq 3).
Qed.

Lemma toggle_selectionInCatalog asset c :
  asset ∈ modelPoolAssets c → selectionInCatalog c →
  selectionInCatalog (toggleAssetSelection asset c).
Proof.
  unfold selectionInCatalog. intros Hasset Hin i.
  destruct (toggle_frame asset c) as (-> & _).
  rewrite selectedAssetIds_toggle. case_bool_decide.
  - rewrite list_elem_of_filter. intros [_ Hi]. by apply Hin.
  - rewrite elem_of_app, list_elem_of_singleton. intros [Hi| ->].
    + by apply Hin.
    + by apply list_elem_of_fmap_2.
Qed.

(** C7. Whenever the catalog request fails, the catalog becomes the demo
    sequence of four assets, with ids demo-iris, demo-sentinel, demo-atlas,
    demo-forge and names Iris-V2, Sentinel-Edge, Atlas-Lite, Forge-XL in
    that order (the same value whatever the state before), the selection
    becomes its first three ids, and the warning message is set. *)
Theorem C7_catalog_failure_loads_demo_catalog (w w' : World) :
  step CatalogError w = Some w' →
  modelPoolAssets (comp w') = buildDemoAssets ∧
  id <$> modelPoolAssets (comp w')
    = ["demo-iris"; "demo-sentinel"; "demo-atlas"; "demo-forge"] ∧
  name <$> modelPoolAssets (comp w')
    = ["Iris-V2"; "Sentinel-Edge"; "Atlas-Lite"; "Forge-XL"] ∧
  selectedAssetIds (comp w') = ["demo-iris"; "demo-sentinel"; "demo-atlas"] ∧
  assetsError (comp w') = "Unable to load live assets. Showing demo catalog." ∧
  isLoadingAssets (comp w') = false.
Proof.
  unfold step. destruct (subscriptions w); [done|]. by intros [= <-].
Qed.

(** C7 on the first request of a page whose provider fails. *)
Lemma C7_failure_on_page_load :
  ∃ w', run [NgOnInit; CatalogError] newWorld = Some w' ∧
    modelPoolAssets (comp w') = buildDemoAssets ∧
    id <$> modelPoolAssets (comp w')
      = ["demo-iris"; "demo-sentinel"; "demo-atlas"; "demo-forge"] ∧
    name <$> modelPoolAssets (comp w')
      = ["Iris-V2"; "Sentinel-Edge"; "Atlas-Lite"; "Forge-XL"] ∧
    selectedAssetIds (comp w') = ["demo-iris"; "demo-sentinel"; "demo-atlas"] ∧
    assetsError (comp w') = "Unable to load live assets. Showing demo catalog." ∧
    isLoadingAssets (comp w') = false.
Proof.
  eexists. split; [reflexivity|].
  eapply (C7_catalog_failure_loads_demo_catalog
            {| comp := loadModelPool_start newComponent;
               subscriptions := 1; timeouts := 0 |}).
  reflexivity.
Defined.

(** C8. In a state with fewer than two selected ids and no run in progress,
    the run action leaves the leaderboard as it is, keeps the running flag
    false, sets no timer, and sets the status message to "Select at least
    two models to generate a ranking."; nothing else changes. *)
Theorem C8_run_refused_below_two_selected (w : World) :
  isRunning (comp w) = false →
  length (selectedAssetIds (comp w)) < 2 →
  ∃ w',
    step RunRanking w = Some w' ∧
    rankingRows (comp w') = rankingRows (comp w) ∧
    isRunning (comp w') = false ∧
    statusMessage (comp w') = "Select at least two models to generate a ranking." ∧
    timeouts w' = timeouts w ∧
    comp w' = set_statusMessage
                "Select at least two models to generate a ranking." (comp w).
Proof.
  intros Hrun Hlen. eexists. unfold step, runRanking.
  rewrite Hrun, decide_True by done. by split_and!.
Qed.

(** C8 on the fresh page, whose selection is still empty. *)
Lemma C8_run_before_catalog_arrives :
  ∃ w',
    step RunRanking newWorld = Some w' ∧
    rankingRows (comp w') = initialRankingRows ∧
    isRunning (comp w') = false ∧
    statusMessage (comp w') = "Select at least two models to generate a ranking." ∧
    timeouts w' = 0 ∧
    comp w' = set_statusMessage
                "Select at least two models to generate a ranking." newComponent.
Proof.
  apply (C8_run_refused_below_two_selected newWorld).
  - reflexivity.
  - simpl. lia.
Defined.

(** *** Invariants of the session *)

Lemma step_isRunning_timeouts e w w' :
  step e w = Some w' → oneRunInFlight w → oneRunInFlight w'.
Proof.
  unfold oneRunInFlight. intros Hstep Hinv.
  destruct e; simpl in Hstep.
  - by simplify_eq.
  - destruct (subscriptions w); by simplify_eq.
  - destruct (subscriptions w); by simplify_eq.
  - by simplify_eq.
  - simplify_eq. simpl. by destruct (toggle_frame asset (comp w)) as (_ & -> & _).
  - by simplify_eq.
  - by simplify_eq.
  - unfold runRanking in Hstep. destruct (isRunning (comp w)) eqn:E.
    + simplify_eq. simpl. by rewrite E.
    + case_decide; simplify_eq; simpl; [by rewrite E|by rewrite Hinv].
  - destruct (timeouts w) as [|n] eqn:E; [done|]. simplify_eq. simpl.
    destruct (isRunning (comp w)); lia.
Qed.

Lemma reachable_oneRunInFlight allowed w :
  reachable allowed w → oneRunInFlight w.
Proof.
  induction 1 as [|w e w' _ IH _ Hstep]; [done|].
  by eapply step_isRunning_timeouts.
Qed.

(** C9. In a state whose running flag is set, the run action changes
    nothing: the component and the pending timers are the same afterwards.
    Hence in every state a session reaches the pending timers are exactly
    the one of the run in progress, so at most one ranking computation is
    ever in flight. *)
Theorem C9_run_while_running_is_noop (w : World) :
  isRunning (comp w) = true →
  step RunRanking w = Some w
  ∧ (reachable any_event w → timeouts w = 1)
  ∧ (∀ w0, reachable any_event w0 → oneRunInFlight w0 ∧ timeouts w0 ≤ 1).
Proof.
  intros Hrun. split_and!.
  - unfold step, runRanking. rewrite Hrun. by destruct w.
  - intros Hw. apply reachable_oneRunInFlight in Hw.
    unfold oneRunInFlight in Hw. by rewrite Hrun in Hw.
  - intros w0 Hw0. apply reachable_oneRunInFlight in Hw0 as Hinv.
    split; [done|]. unfold oneRunInFlight in Hinv.
    destruct (isRunning (comp w0)); lia.
Qed.

(** C9 on the demo world while its run is in progress. *)
Lemma C9_second_run_on_demo_world :
  step RunRanking runningDemoWorld = Some runningDemoWorld
  ∧ (reachable any_event runningDemoWorld → timeouts runningDemoWorld = 1)
  ∧ (∀ w0, reachable any_event w0 → oneRunInFlight w0 ∧ timeouts w0 ≤ 1).
Proof.
  apply (C9_run_while_running_is_noop runningDemoWorld). reflexivity.
Defined.

(** C10 (as stated) fails: [toggleAssetSelection] does not look its argument
    up in the catalog, so toggling an asset that the loaded catalog does not
    hold puts an id into the selection that references no catalog asset. *)
Lemma C10_toggle_of_stray_asset_breaks_invariant :
  ∃ w, run [NgOnInit; CatalogError; Toggle strayAsset] newWorld = Some w ∧
       reachable any_event w ∧
       id strayAsset ∈ selectedAssetIds (comp w) ∧
       (id strayAsset ∉ id <$> modelPoolAssets (comp w)) ∧
       ¬ selectionInCatalog (comp w).
Proof.
  eexists. split; [vm_compute; reflexivity|].
  assert (id strayAsset ∈ ["demo-iris"; "demo-sentinel"; "demo-atlas";
                           "asset-user1-fraud-api"]) as Hsel
    by (repeat first [apply list_elem_of_here | apply list_elem_of_further]).
  assert (id strayAsset ∉ ["demo-iris"; "demo-sentinel"; "demo-atlas";
                           "demo-forge"]) as Hpool.
  { apply (bool_decide_unpack _). vm_compute. exact I. }
  split; [|split; [exact Hsel|split; [exact Hpool|]]].
  - apply (reachable_run _ [NgOnInit; CatalogError; Toggle strayAsset] newWorld);
      [constructor|by vm_compute|vm_compute; reflexivity].
  - intros Hin. apply Hpool. by apply Hin.
Qed.

(** C10 (amended). In every state of a session in which toggles are applied
    to assets of the loaded catalog only, every selected id is the id of an
    asset of the loaded catalog: this holds after each catalog load (the
    selection is then the ids of the first three assets, loaded or demo) and
    is preserved by every such toggle, by a reload, and by every other
    event. *)
Theorem C10_selection_stays_in_catalog (w : World) :
  reachable toggles_from_catalog w → selectionInCatalog (comp w).
Proof.
  induction 1 as [|w e w' _ IH Hallowed Hstep].
  - intros i Hi. by apply not_elem_of_nil in Hi.
  - destruct e; simpl in Hstep, Hallowed.
    + by simplify_eq.
    + destruct (subscriptions w); simplify_eq.
      apply loadModelPool_next_selectionInCatalog.
    + destruct (subscriptions w); simplify_eq.
      apply loadModelPool_error_selectionInCatalog.
    + by simplify_eq.
    + simplify_eq. by apply toggle_selectionInCatalog.
    + by simplify_eq.
    + by simplify_eq.
    + unfold runRanking in Hstep. destruct (isRunning (comp w)); [by simplify_eq|].
      case_decide; by simplify_eq.
    + destruct (timeouts w); by simplify_eq.
Qed.

(** C10 (amended) after the fourth demo card has been ticked as well: four
    ids are selected, all of the demo catalog. *)
Lemma C10_after_ticking_the_fourth_demo_card :
  ∃ w, run ([NgOnInit; CatalogError] ++ (Toggle <$> drop 3 buildDemoAssets))
           newWorld = Some w ∧
       selectedAssetIds (comp w)
         = ["demo-iris"; "demo-sentinel"; "demo-atlas"; "demo-forge"] ∧
       selectionInCatalog (comp w).
Proof.
  eexists. split; [vm_compute; reflexivity|].
  split; [vm_compute; reflexivity|].
  apply C10_selection_stays_in_catalog.
  apply (reachable_run _
           ([NgOnInit; CatalogError] ++ (Toggle <$> drop 3 buildDemoAssets))
           newWorld);
    [constructor| |vm_compute; reflexivity].
  vm_compute. repeat split;
    repeat first [apply list_elem_of_here | apply list_elem_of_further].
Defined.

(** ** Further properties of the component *)

(** *** The tag summary *)

Lemma getAssetMeta_nonEmptyTags asset :
  getAssetMeta asset =
    match nonEmptyTags asset with
    | [] => "Benchmark-ready"
    | [t] => t
    | t1 :: t2 :: _ => t1 +:+ ", " +:+ t2
    end.
Proof.
  unfold getAssetMeta. fold (nonEmptyTags asset).
  destruct (nonEmptyTags asset) as [|t1 [|t2 rest]]; reflexivity.
Qed.

(** The summary line of a card is never empty: it is the placeholder when
    the asset has no non-empty tag, the only non-empty tag when there is one,
    and the first two joined by ", " otherwise. *)
Theorem getAssetMeta_never_empty (asset : MLAsset) :
  getAssetMeta asset ≠ "" ∧
  (nonEmptyTags asset = [] → getAssetMeta asset = "Benchmark-ready") ∧
  (∀ t, nonEmptyTags asset = [t] → getAssetMeta asset = t) ∧
  (∀ t1 t2 rest, nonEmptyTags asset = t1 :: t2 :: rest →
                 getAssetMeta asset = t1 +:+ ", " +:+ t2).
Proof.
  rewrite getAssetMeta_nonEmptyTags. split.
  - destruct (nonEmptyTags asset) as [|t1 rest] eqn:E; [done|].
    assert (t1 ≠ "") as Ht1.
    { assert (t1 ∈ nonEmptyTags asset) as Hin by (rewrite E; left).
      unfold nonEmptyTags in Hin. by apply list_elem_of_filter in Hin as [? _]. }
    destruct t1 as [|a t1]; [done|]. by destruct rest.
  - split_and!.
    + by intros ->.
    + by intros t ->.
    + by intros t1 t2 rest ->.
Qed.

(** Frameworks and libraries come first: once they hold two non-empty tags
    the algorithms of the asset do not show in the summary. *)
Theorem getAssetMeta_ignores_algorithms (asset : MLAsset) (algos : list string) :
  2 ≤ length (filter (λ t : string, t ≠ "") (frameworks asset ++ libraries asset)) →
  getAssetMeta (with_algorithms algos asset) = getAssetMeta asset.
Proof.
  intros Hlen. rewrite !getAssetMeta_nonEmptyTags. unfold nonEmptyTags.
  cbn [frameworks libraries algorithms with_algorithms].
  rewrite !(assoc_L (++)), !(filter_app _ (frameworks asset ++ libraries asset)).
  destruct (filter _ (frameworks asset ++ libraries asset)) as [|t1 [|t2 rest]];
    simpl in Hlen; [lia..|done].
Qed.

(** The two demo assets that differ in their algorithm show the same line. *)
Lemma getAssetMeta_demo_assets_ignore_algorithms :
  getAssetMeta (with_algorithms ["Random Forest"] (spread baseAsset "demo-forge" "Forge-XL"))
  = getAssetMeta (spread baseAsset "demo-forge" "Forge-XL").
Proof.
  apply (getAssetMeta_ignores_algorithms (spread baseAsset "demo-forge" "Forge-XL")).
  vm_compute. lia.
Defined.

(** *** Loading the catalog, continued *)

(** A catalog request that succeeds stores the catalog as delivered, selects
    the ids of its first three assets in the provider's order (all of them
    when there are fewer), clears the loading flag, and leaves no warning
    behind, whatever warning was shown before the request. *)
Theorem load_success_selects_first_three (w : World) (assets : list MLAsset) :
  ∃ w1 w2,
    step NgOnInit w = Some w1 ∧ step (CatalogNext assets) w1 = Some w2 ∧
    modelPoolAssets (comp w2) = assets ∧
    selectedAssetIds (comp w2) = id <$> take 3 assets ∧
    selectedCount (comp w2) = 3 `min` length assets ∧
    isLoadingAssets (comp w1) = true ∧ isLoadingAssets (comp w2) = false ∧
    assetsError (comp w2) = "" ∧
    subscriptions w2 = subscriptions w.
Proof.
  eexists _, _. split; [reflexivity|]. split; [reflexivity|].
  split_and!; try done.
  unfold selectedCount. cbn. by rewrite length_fmap, length_take.
Qed.

(** *** The selection, continued *)

Lemma isAssetSelected_spec asset c :
  isAssetSelected asset c = true ↔ id asset ∈ selectedAssetIds c.
Proof. unfold isAssetSelected. apply bool_decide_eq_true. Qed.

(** A toggle flips the selection status of every card with the same id as
    the toggled asset and leaves the status of every other card alone. *)
Theorem toggle_flips_only_its_id (asset other : MLAsset) (c : Component) :
  isAssetSelected other (toggleAssetSelection asset c) =
    if decide (id other = id asset) then negb (isAssetSelected other c)
    else isAssetSelected other c.
Proof.
  unfold isAssetSelected at 1 3. rewrite selectedAssetIds_toggle.
  unfold isAssetSelected.
  destruct (decide (id other = id asset)) as [->|Hne].
  - destruct (decide (id asset ∈ selectedAssetIds c)) as [Hin|Hout].
    + rewrite (bool_decide_eq_true_2 _ Hin). simpl.
      apply bool_decide_eq_false_2. rewrite list_elem_of_filter. by intros [? _].
    + rewrite (bool_decide_eq_false_2 _ Hout). simpl.
      apply bool_decide_eq_true_2, elem_of_app. right. left.
  - apply bool_decide_ext. case_bool_decide.
    + rewrite list_elem_of_filter. split; [by intros [_ ?]|by intros ?].
    + rewrite elem_of_app, list_elem_of_singleton.
      split; [by intros [?|?]|by left].
Qed.

Lemma length_filter_ne_NoDup (i : string) (ids : list string) :
  NoDup ids → i ∈ ids → S (length (filter (λ j, j ≠ i) ids)) = length ids.
Proof.
  induction 1 as [|j ids Hj Hnd IH]; intros Hin.
  - by apply not_elem_of_nil in Hin.
  - apply elem_of_cons in Hin as [->|Hin].
    + rewrite filter_cons_False by (intros Hne; by apply Hne).
      simpl. f_equal. f_equal. clear IH Hnd.
      induction ids as [|k ids IH]; [done|].
      apply not_elem_of_cons in Hj as [Hne Hj].
      rewrite filter_cons_True by done. by rewrite IH.
    + rewrite filter_cons_True by (intros ->; by apply Hj).
      simpl. by rewrite IH.
Qed.

(** Selecting a card raises the selection count by one; unselecting one
    lowers it by one when the selection holds no id twice. *)
Theorem toggle_changes_count_by_one (asset : MLAsset) (c : Component) :
  (isAssetSelected asset c = false →
   selectedCount (toggleAssetSelection asset c) = S (selectedCount c)) ∧
  (isAssetSelected asset c = true → NoDup (selectedAssetIds c) →
   S (selectedCount (toggleAssetSelection asset c)) = selectedCount c).
Proof.
  unfold selectedCount. rewrite selectedAssetIds_toggle.
  unfold isAssetSelected. split.
  - intros ->. rewrite length_app. simpl. lia.
  - intros Hsel Hnd. rewrite Hsel.
    apply length_filter_ne_NoDup; [done|]. by apply bool_decide_eq_true in Hsel.
Qed.

Lemma set_selectedAssetIds_same c :
  set_selectedAssetIds (selectedAssetIds c) c = c.
Proof. by destruct c. Qed.

(** Ticking a card that was not selected and unticking it again gives back
    the very same component: the selection in its original order, and every
    other field. *)
Theorem toggle_on_then_off_restores_component (asset : MLAsset) (c : Component) :
  isAssetSelected asset c = false →
  toggleAssetSelection asset (toggleAssetSelection asset c) = c.
Proof.
  intros Hsel.
  assert (id asset ∉ selectedAssetIds c) as Hout.
  { intros Hin. apply isAssetSelected_spec in Hin. congruence. }
  unfold toggleAssetSelection at 2. rewrite Hsel.
  unfold toggleAssetSelection, isAssetSelected.
  cbn [selectedAssetIds set_selectedAssetIds].
  rewrite bool_decide_eq_true_2 by (apply elem_of_app; right; left).
  rewrite filter_ne_app_absent by done. by destruct c.
Qed.

(** Ticking and unticking the fourth demo card, which is not selected by
    default. *)
Lemma toggle_on_then_off_demo_forge :
  toggleAssetSelection (sampleAsset "demo-forge" "Forge-XL")
    (toggleAssetSelection (sampleAsset "demo-forge" "Forge-XL") (comp demoWorld))
  = comp demoWorld.
Proof.
  apply toggle_on_then_off_restores_component. vm_compute. reflexivity.
Defined.

Lemma toggle_NoDup asset c :
  NoDup (selectedAssetIds c) → NoDup (selectedAssetIds (toggleAssetSelection asset c)).
Proof.
  intros Hnd. rewrite selectedAssetIds_toggle. case_bool_decide.
  - by apply NoDup_filter.
  - apply NoDup_app. split; [done|]. split; [|apply NoDup_singleton].
    by intros j Hj ->%list_elem_of_singleton.
Qed.

Lemma NoDup_take {A} (n : nat) (l : list A) : NoDup l → NoDup (take n l).
Proof.
  intros Hnd. rewrite <- (take_drop n l) in Hnd. by apply NoDup_app in Hnd as [? _].
Qed.

Lemma buildDemoAssets_distinct_ids : NoDup (id <$> buildDemoAssets).
Proof. apply (bool_decide_unpack _). vm_compute. exact I. Qed.

Lemma reachable_weaken (allowed allowed' : World → Event → Prop) w :
  (∀ w e, allowed w e → allowed' w e) →
  reachable allowed w → reachable allowed' w.
Proof.
  intros Himp. induction 1 as [|w e w' _ IH He Hstep]; [constructor|].
  eapply reachable_step; eauto.
Qed.

Lemma step_selectionInCatalog e w w' :
  toggles_from_catalog w e → step e w = Some w' →
  selectionInCatalog (comp w) → selectionInCatalog (comp w').
Proof.
  intros Hallowed Hstep Hin. destruct e; simpl in Hstep, Hallowed.
  - by simplify_eq.
  - destruct (subscriptions w); simplify_eq.
    apply loadModelPool_next_selectionInCatalog.
  - destruct (subscriptions w); simplify_eq.
    apply loadModelPool_error_selectionInCatalog.
  - by simplify_eq.
  - simplify_eq. by apply toggle_selectionInCatalog.
  - by simplify_eq.
  - by simplify_eq.
  - unfold runRanking in Hstep. destruct (isRunning (comp w)); [by simplify_eq|].
    case_decide; by simplify_eq.
  - destruct (timeouts w); by simplify_eq.
Qed.

Lemma step_NoDup_selection e w w' :
  distinct_catalog_ids w e → step e w = Some w' →
  NoDup (selectedAssetIds (comp w)) → NoDup (selectedAssetIds (comp w')).
Proof.
  intros Hallowed Hstep Hnd. destruct e; simpl in Hstep, Hallowed.
  - by simplify_eq.
  - destruct (subscriptions w); simplify_eq. simpl.
    rewrite fmap_take. by apply NoDup_take.
  - destruct (subscriptions w); simplify_eq.
    change (NoDup (id <$> take 3 buildDemoAssets)).
    rewrite fmap_take. apply NoDup_take, buildDemoAssets_distinct_ids.
  - by simplify_eq.
  - simplify_eq. by apply toggle_NoDup.
  - by simplify_eq.
  - by simplify_eq.
  - unfold runRanking in Hstep. destruct (isRunning (comp w)); [by simplify_eq|].
    case_decide; by simplify_eq.
  - destruct (timeouts w); by simplify_eq.
Qed.

(** As long as the provider's catalogs have distinct ids, the selection
    never holds an id twice, whatever is toggled and in whatever order. *)
Theorem selection_never_holds_an_id_twice (w : World) :
  reachable distinct_catalog_ids w → NoDup (selectedAssetIds (comp w)).
Proof.
  induction 1 as [|w e w' _ IH He Hstep]; [constructor|].
  by eapply step_NoDup_selection.
Qed.

(** After a live catalog of two assets, ticking and unticking a third one. *)
Lemma selection_after_live_load_has_no_repeat :
  ∃ w, run [NgOnInit; CatalogNext fraudAndSentinent; Toggle strayAsset;
            Toggle strayAsset] newWorld = Some w ∧
       NoDup (selectedAssetIds (comp w)).
Proof.
  eexists. split; [vm_compute; reflexivity|].
  apply selection_never_holds_an_id_twice.
  apply (reachable_run _ [NgOnInit; CatalogNext fraudAndSentinent;
                          Toggle strayAsset; Toggle strayAsset] newWorld);
    [constructor| |vm_compute; reflexivity].
  cbn [permitted distinct_catalog_ids]. split; [exact I|].
  change (step NgOnInit newWorld) with
    (Some {| comp := loadModelPool_start newComponent;
             subscriptions := 1; timeouts := 0 |}).
  split; [apply (bool_decide_unpack _); vm_compute; exact I|].
  vm_compute. repeat split.
Defined.

Lemma catalog_session_invariants w :
  reachable catalog_session w →
  selectionInCatalog (comp w) ∧ NoDup (selectedAssetIds (comp w)).
Proof.
  induction 1 as [|w e w' _ [IH1 IH2] [He1 He2] Hstep].
  - split; [|constructor]. intros i Hi. by apply not_elem_of_nil in Hi.
  - split; [by eapply step_selectionInCatalog|by eapply step_NoDup_selection].
Qed.

Lemma NoDup_subseteq_length (ids pool : list string) :
  NoDup ids → ids ⊆ pool → length ids ≤ length pool.
Proof.
  intros Hnd Hsub. apply submseteq_length. by apply NoDup_submseteq.
Qed.

(** With fewer than two assets in the catalog the run action never starts
    a run: in a session whose toggles come from the catalog and whose
    catalogs have distinct ids, it sets no timer and leaves the running flag
    and the leaderboard as they are.  When no run is in progress it shows
    the validation message; when one is (it was started before the catalog
    was replaced) the action changes nothing at all. *)
Theorem small_catalog_never_starts_a_run (w : World) :
  reachable catalog_session w →
  length (modelPoolAssets (comp w)) < 2 →
  ∃ w', step RunRanking w = Some w' ∧
        timeouts w' = timeouts w ∧
        isRunning (comp w') = isRunning (comp w) ∧
        rankingRows (comp w') = rankingRows (comp w) ∧
        (isRunning (comp w) = false →
         statusMessage (comp w')
         = "Select at least two models to generate a ranking.") ∧
        (isRunning (comp w) = true → w' = w).
Proof.
  intros Hreach Hpool.
  destruct (catalog_session_invariants w Hreach) as [Hin Hnd].
  assert (length (selectedAssetIds (comp w)) < 2) as Hlen.
  { pose proof (NoDup_subseteq_length _ _ Hnd Hin) as Hle.
    rewrite length_fmap in Hle. lia. }
  unfold step, runRanking.
  destruct (isRunning (comp w)) eqn:Hrun.
  - eexists. split; [reflexivity|]. split_and!; try done.
    intros _. by destruct w.
  - rewrite decide_True by done. eexists. split; [reflexivity|].
    by split_and!.
Qed.

(** A live catalog of one asset: the run is refused even after a toggle. *)
Lemma single_asset_catalog_starts_no_run :
  let only := [sampleAsset "asset-user1-fraud-api" "Fraud API"] in
  ∃ w w', run [NgOnInit; CatalogNext only;
               Toggle (sampleAsset "asset-user1-fraud-api" "Fraud API");
               Toggle (sampleAsset "asset-user1-fraud-api" "Fraud API")]
              newWorld = Some w ∧
          selectedAssetIds (comp w) = ["asset-user1-fraud-api"] ∧
          step RunRanking w = Some w' ∧
          timeouts w' = 0 ∧ isRunning (comp w') = false ∧
          statusMessage (comp w')
          = "Select at least two models to generate a ranking." ∧
          rankingRows (comp w') = initialRankingRows.
Proof.
  cbv zeta. eexists.
  destruct (small_catalog_never_starts_a_run
    {| comp := toggleAssetSelection (sampleAsset "asset-user1-fraud-api" "Fraud API")
                 (toggleAssetSelection (sampleAsset "asset-user1-fraud-api" "Fraud API")
                    (loadModelPool_next [sampleAsset "asset-user1-fraud-api" "Fraud API"]
                       (loadModelPool_start newComponent)));
       subscriptions := 0; timeouts := 0 |})
    as (w' & Hstep & Htimer & Hflag & Hrows & Hmsg & _).
  - apply (reachable_run _
             [NgOnInit; CatalogNext [sampleAsset "asset-user1-fraud-api" "Fraud API"];
              Toggle (sampleAsset "asset-user1-fraud-api" "Fraud API");
              Toggle (sampleAsset "asset-user1-fraud-api" "Fraud API")] newWorld);
      [constructor| |reflexivity].
    vm_compute. repeat split; try apply list_elem_of_here.
    apply NoDup_singleton.
  - vm_compute. lia.
  - exists w'. split; [reflexivity|]. split; [vm_compute; reflexivity|].
    split; [exact Hstep|]. split; [exact Htimer|]. split; [exact Hflag|].
    split; [by apply Hmsg|exact Hrows].
Defined.

(** *** What a run ranks *)

Lemma selectedAssets_membership c1 c2 :
  modelPoolAssets c1 = modelPoolAssets c2 →
  (∀ i, i ∈ selectedAssetIds c1 ↔ i ∈ selectedAssetIds c2) →
  selectedAssets c1 = selectedAssets c2.
Proof.
  intros Hpool Hmem. unfold selectedAssets. rewrite Hpool.
  apply list_filter_iff. intros asset. apply Hmem.
Qed.

(** The leaderboard depends on the selection only through its membership:
    two components with the same catalog whose selections hold the same ids,
    in whatever order and however often, get the same leaderboard when the
    timer fires. *)
Theorem leaderboard_ignores_selection_order (c1 c2 : Component) :
  modelPoolAssets c1 = modelPoolAssets c2 →
  (∀ i, i ∈ selectedAssetIds c1 ↔ i ∈ selectedAssetIds c2) →
  rankingRows (runRanking_timeout c1) = rankingRows (runRanking_timeout c2).
Proof.
  intros Hpool Hmem. cbn [runRanking_timeout rankingRows set_rankingRows
    set_isRunning set_statusMessage].
  by rewrite (selectedAssets_membership c1 c2).
Qed.

(** Unticking and ticking the first demo card moves its id to the end of the
    selection and leaves the leaderboard of a run as it would have been. *)
Lemma leaderboard_after_reselecting_first_card :
  let iris := sampleAsset "demo-iris" "Iris-V2" in
  let c := comp demoWorld in
  let c' := toggleAssetSelection iris (toggleAssetSelection iris c) in
  selectedAssetIds c' = ["demo-sentinel"; "demo-atlas"; "demo-iris"] ∧
  rankingRows (runRanking_timeout c') = rankingRows (runRanking_timeout c).
Proof.
  cbv zeta. split; [vm_compute; reflexivity|].
  apply leaderboard_ignores_selection_order.
  - reflexivity.
  - intros i. change (i ∈ ["demo-sentinel"; "demo-atlas"; "demo-iris"]
                      ↔ i ∈ ["demo-iris"; "demo-sentinel"; "demo-atlas"]).
    rewrite !elem_of_cons. tauto.
Defined.

(** *** Runs end *)

(** A run that is in progress always ends: in every state a session reaches
    with the running flag set, the timer can fire, and when it does the flag
    is cleared, no timer is left, the completion message is shown, and the
    selection and the catalog are as they were.  With the flag clear no
    timer is pending, so nothing replaces the leaderboard behind the user's
    back. *)
Theorem run_in_progress_ends (w : World) :
  reachable any_event w →
  (isRunning (comp w) = true →
   ∃ w', step TimerFires w = Some w' ∧ isRunning (comp w') = false ∧
         timeouts w' = 0 ∧
         statusMessage (comp w') =
           "Demo ranking generated. Replace with live benchmarking when backend is ready." ∧
         selectedAssetIds (comp w') = selectedAssetIds (comp w) ∧
         modelPoolAssets (comp w') = modelPoolAssets (comp w)) ∧
  (isRunning (comp w) = false → step TimerFires w = None).
Proof.
  intros Hreach. apply reachable_oneRunInFlight in Hreach.
  unfold oneRunInFlight in Hreach. split; intros Hrun; rewrite Hrun in Hreach.
  - eexists. unfold step. rewrite Hreach. by split_and!.
  - unfold step. by rewrite Hreach.
Qed.

(** The run of the demo selection ends when its timer fires. *)
Lemma run_on_demo_world_ends :
  (isRunning (comp runningDemoWorld) = true →
   ∃ w', step TimerFires runningDemoWorld = Some w' ∧ isRunning (comp w') = false ∧
         timeouts w' = 0 ∧
         statusMessage (comp w') =
           "Demo ranking generated. Replace with live benchmarking when backend is ready." ∧
         selectedAssetIds (comp w') = selectedAssetIds (comp runningDemoWorld) ∧
         modelPoolAssets (comp w') = modelPoolAssets (comp runningDemoWorld)) ∧
  (isRunning (comp runningDemoWorld) = false → step TimerFires runningDemoWorld = None).
Proof.
  apply (run_in_progress_ends runningDemoWorld).
  apply (reachable_run _ [NgOnInit; CatalogError; RunRanking] newWorld);
    [constructor|by vm_compute|vm_compute; reflexivity].
Defined.

(** *** What each event leaves alone *)

(** Only the timer of a run writes the leaderboard: every other event, the
    run action itself included, leaves the displayed rows as they are. *)
Theorem leaderboard_changes_only_when_timer_fires (e : Event) (w w' : World) :
  e ≠ TimerFires → step e w = Some w' →
  rankingRows (comp w') = rankingRows (comp w).
Proof.
  intros He Hstep. destruct e; simpl in Hstep; try done.
  - by simplify_eq.
  - destruct (subscriptions w); by simplify_eq.
  - destruct (subscriptions w); by simplify_eq.
  - by simplify_eq.
  - simplify_eq. simpl. by destruct (toggle_frame asset (comp w)) as (_ & _ & -> & _).
  - by simplify_eq.
  - by simplify_eq.
  - unfold runRanking in Hstep. destruct (isRunning (comp w)); [by simplify_eq|].
    case_decide; by simplify_eq.
Qed.

(** An accepted run shows the initial rows until its timer fires. *)
Lemma leaderboard_survives_accepted_run :
  ∃ w', step RunRanking demoWorld = Some w' ∧ isRunning (comp w') = true ∧
        rankingRows (comp w') = initialRankingRows.
Proof.
  eexists. split; [reflexivity|]. split; [reflexivity|].
  apply (leaderboard_changes_only_when_timer_fires RunRanking demoWorld);
    [discriminate|reflexivity].
Defined.

(** The catalog is replaced only by an answer of the provider, and the
    selection only by such an answer or by a toggle; a run, its timer, the
    schema validation, the input mode and the file picker touch neither. *)
Theorem catalog_and_selection_frame (e : Event) (w w' : World) :
  step e w = Some w' →
  ((∀ assets, e ≠ CatalogNext assets) → e ≠ CatalogError →
   modelPoolAssets (comp w') = modelPoolAssets (comp w)) ∧
  ((∀ assets, e ≠ CatalogNext assets) → e ≠ CatalogError →
   (∀ asset, e ≠ Toggle asset) →
   selectedAssetIds (comp w') = selectedAssetIds (comp w)).
Proof.
  intros Hstep. destruct e; simpl in Hstep.
  - by simplify_eq.
  - split; intros Hne; by destruct (Hne assets).
  - split; intros _ Hne; by destruct Hne.
  - by simplify_eq.
  - simplify_eq. split.
    + intros _ _. simpl. by destruct (toggle_frame asset (comp w)) as (-> & _).
    + intros _ _ Hne. by destruct (Hne asset).
  - by simplify_eq.
  - by simplify_eq.
  - unfold runRanking in Hstep. destruct (isRunning (comp w)); [by simplify_eq|].
    case_decide; by simplify_eq.
  - destruct (timeouts w); by simplify_eq.
Qed.

(** The timer of the demo run leaves the catalog and the selection alone. *)
Lemma timer_keeps_catalog_and_selection :
  ∃ w', step TimerFires runningDemoWorld = Some w' ∧
        modelPoolAssets (comp w') = buildDemoAssets ∧
        selectedAssetIds (comp w') = ["demo-iris"; "demo-sentinel"; "demo-atlas"].
Proof.
  eexists. split; [reflexivity|].
  destruct (catalog_and_selection_frame TimerFires runningDemoWorld _ eq_refl)
    as [Hpool Hsel].
  split; [by apply Hpool|by apply Hsel].
Defined.

(** *** Loading flag and warning *)

(** Whenever the loading flag is set a request is outstanding, so an answer
    of the provider can be delivered, and either answer clears the flag. *)
Theorem loading_flag_means_request_outstanding (w : World) :
  reachable any_event w → isLoadingAssets (comp w) = true →
  0 < subscriptions w ∧
  (∀ assets, ∃ w', step (CatalogNext assets) w = Some w'
                   ∧ isLoadingAssets (comp w') = false) ∧
  (∃ w', step CatalogError w = Some w' ∧ isLoadingAssets (comp w') = false).
Proof.
  intros Hreach Hload.
  assert (0 < subscriptions w) as Hsub.
  { revert Hload. induction Hreach as [|w e w' _ IH _ Hstep]; [done|].
    destruct e; simpl in Hstep.
    - simplify_eq. simpl. lia.
    - destruct (subscriptions w); by simplify_eq.
    - destruct (subscriptions w); by simplify_eq.
    - simplify_eq. apply IH.
    - simplify_eq. simpl. unfold toggleAssetSelection.
      destruct (isAssetSelected asset (comp w)); apply IH.
    - simplify_eq. apply IH.
    - simplify_eq. apply IH.
    - unfold runRanking in Hstep. destruct (isRunning (comp w)).
      + simplify_eq. apply IH.
      + case_decide; simplify_eq; apply IH.
    - destruct (timeouts w); simplify_eq. apply IH. }
  split; [done|]. unfold step.
  destruct (subscriptions w); [lia|].
  split; [intros assets|]; by eexists.
Qed.

(** Right after the page has requested the catalog. *)
Lemma loading_flag_on_page_load :
  0 < 1 ∧
  (∀ assets, ∃ w', step (CatalogNext assets)
                        {| comp := loadModelPool_start newComponent;
                           subscriptions := 1; timeouts := 0 |} = Some w'
                   ∧ isLoadingAssets (comp w') = false) ∧
  (∃ w', step CatalogError
              {| comp := loadModelPool_start newComponent;
                 subscriptions := 1; timeouts := 0 |} = Some w'
         ∧ isLoadingAssets (comp w') = false).
Proof.
  apply (loading_flag_means_request_outstanding
           {| comp := loadModelPool_start newComponent;
              subscriptions := 1; timeouts := 0 |}).
  - apply (reachable_run _ [NgOnInit] newWorld); [constructor|by vm_compute|reflexivity].
  - reflexivity.
Defined.

Lemma reachable_warning_invariant w :
  reachable one_request_at_a_time w →
  subscriptions w ≤ 1 ∧
  (subscriptions w = 1 → assetsError (comp w) = "") ∧
  (assetsError (comp w) = "" ∨
   assetsError (comp w) = demoCatalogWarning
   ∧ modelPoolAssets (comp w) = buildDemoAssets).
Proof.
  induction 1 as [|w e w' _ (IH1 & IH2 & IH3) He Hstep].
  - split; [simpl; lia|]. split; [done|by left].
  - destruct e; simpl in Hstep, He.
    + simplify_eq. simpl. split; [lia|]. split; [done|by left].
    + destruct (subscriptions w) as [|n] eqn:E; simplify_eq. simpl.
      assert (n = 0) as -> by lia. split; [lia|]. split; [done|].
      left. by apply IH2.
    + destruct (subscriptions w) as [|n] eqn:E; simplify_eq. simpl.
      split; [lia|]. split; [lia|by right].
    + by simplify_eq.
    + simplify_eq. simpl. split; [done|].
      unfold toggleAssetSelection. by destruct (isAssetSelected asset (comp w)).
    + by simplify_eq.
    + by simplify_eq.
    + unfold runRanking in Hstep. destruct (isRunning (comp w)); [by simplify_eq|].
      case_decide; by simplify_eq.
    + destruct (timeouts w); by simplify_eq.
Qed.

(** When the catalog is requested only while no request is outstanding, the
    warning is shown exactly over the demo catalog: in every state the
    session reaches, either there is no warning, or the warning is the
    fallback message and the catalog is the demo catalog. *)
Theorem warning_means_demo_catalog (w : World) :
  reachable one_request_at_a_time w →
  assetsError (comp w) ≠ "" →
  assetsError (comp w) = demoCatalogWarning ∧
  modelPoolAssets (comp w) = buildDemoAssets ∧
  subscriptions w = 0.
Proof.
  intros Hreach Herr.
  destruct (reachable_warning_invariant w Hreach) as (Hle & Hone & [?|[? ?]]);
    [done|].
  split; [done|]. split; [done|].
  destruct (decide (subscriptions w = 1)) as [Heq|]; [|lia].
  by destruct (Herr (Hone Heq)).
Qed.

(** The warning after the first request of the page has failed. *)
Lemma warning_after_failed_load :
  assetsError (comp demoWorld) = demoCatalogWarning ∧
  modelPoolAssets (comp demoWorld) = buildDemoAssets ∧
  subscriptions demoWorld = 0.
Proof.
  apply (warning_means_demo_catalog demoWorld).
  - apply (reachable_run _ [NgOnInit; CatalogError] newWorld);
      [constructor|by vm_compute|reflexivity].
  - vm_compute. discriminate.
Defined.


(** *** Values of the rows *)

(** For an asset whose id is neither a key of the table nor the name of an
    inherited member, at position [index], the raw row is the fallback
    literal: the score [fallbackScores[index mod 5]], the accuracy
    [Math.min(0.95, score + 0.06)], which is always the sum itself, the
    latency [280 + index * 40] in decimal followed by "ms", the cost "$0.0"
    followed by [12 + index] in decimal, the asset's display name as
    [model], rank 0 and no [top]. *)
Theorem unknown_ordinary_id_row_is_fallback (asset : MLAsset) (index : nat) :
  id asset ∉ knownIds → ordinaryId (id asset) →
  let row := buildRankingRow asset index in
  fallbackScores = [0.87; 0.85; 0.82; 0.79; 0.76]%float ∧
  (∃ s, fallbackScores !! (index `mod` 5) = Some s ∧
        score row = Some s ∧
        accuracy row = Some (Js.Math_min 0.95 (s + 0.06)) ∧
        accuracy row = Some (s + 0.06)%float) ∧
  latency row = Some (Js.toString (280 + index * 40) +:+ "ms") ∧
  cost row = Some ("$0.0" +:+ Js.toString (12 + index)) ∧
  model row = Some (name asset) ∧
  rank row = Some 0 ∧ top row = None.
Proof.
  intros Hid Hord. cbv zeta.
  rewrite (buildRankingRow_fallback asset index Hid Hord). cbv zeta.
  split; [done|]. split; [|done].
  exists (Js.numberAt fallbackScores (index `mod` 5)).
  split; [apply fallbackScores_lookup|]. split; [done|]. split; [done|].
  cbn [accuracy rowLiteral]. f_equal. apply fallback_accuracy_uncapped.
Qed.

(** A demo asset at position 10: score 0.87 again, and the cost string
    reads "$0.022". *)
Lemma fallback_row_of_demo_asset_at_index_10 :
  let row := buildRankingRow (sampleAsset "demo-iris" "Iris-V2") 10 in
  score row = Some 0.87%float ∧
  latency row = Some "680ms" ∧ cost row = Some "$0.022" ∧
  model row = Some "Iris-V2".
Proof.
  pose proof (unknown_ordinary_id_row_is_fallback
                (sampleAsset "demo-iris" "Iris-V2") 10) as H.
  cbv zeta in H.
  destruct H as (_ & (s & Hs & Hscore & _) & Hlat & Hcost & Hmodel & _).
  - apply (bool_decide_unpack _). vm_compute. exact I.
  - unfold ordinaryId. apply (bool_decide_unpack _). vm_compute. exact I.
  - cbv zeta. split; [|split; [exact Hlat|split; [exact Hcost|exact Hmodel]]].
    rewrite Hscore. rewrite <- Hs. reflexivity.
Defined.

(** Every row literal [buildRankingRow] builds, for a key of the table or
    for an ordinary unknown id and at whatever position, has a score between
    0.76 and 0.88 and an accuracy above its score and at most 0.94: both are
    proper fractions, and the cap of 0.95 is never reached.  (An id that
    names an inherited member gets no row literal, and no score.) *)
Theorem buildRankingRow_bounds (asset : MLAsset) (index : nat) :
  ordinaryId (id asset) →
  ∃ s a,
    score (buildRankingRow asset index) = Some s ∧
    accuracy (buildRankingRow asset index) = Some a ∧
    PrimFloat.leb 0.76 s = true ∧ PrimFloat.leb s 0.88 = true ∧
    PrimFloat.ltb s a = true ∧ PrimFloat.leb a 0.94 = true.
Proof.
  intros Hord.
  destruct (buildRankingRow_cases asset index)
    as [[Hk E]|[[Hp _]|(Hk & _ & ->)]].
  - apply scoreMap_Some_rows in E
      as [[_ ->]|[[_ ->]|[[_ ->]|[_ ->]]]];
      (eexists _, _; split; [reflexivity|]; split; [reflexivity|]);
      vm_compute; by split_and!.
  - by destruct Hord.
  - eexists _, _. split; [reflexivity|]. split; [reflexivity|].
    destruct (mod_5_cases index) as [Hm|[Hm|[Hm|[Hm|Hm]]]]; rewrite Hm;
      vm_compute; by split_and!.
Qed.

(** The bounds on the segmentation model and on an unknown id at position
    3, the lowest accuracy but one. *)
Lemma bounds_of_two_rows :
  (∃ s a, score (buildRankingRow (sampleAsset "asset-user1-segmentation-model" "S") 0) = Some s ∧
          accuracy (buildRankingRow (sampleAsset "asset-user1-segmentation-model" "S") 0) = Some a ∧
          PrimFloat.leb 0.76 s = true ∧ PrimFloat.leb s 0.88 = true ∧
          PrimFloat.ltb s a = true ∧ PrimFloat.leb a 0.94 = true) ∧
  (∃ s a, score (buildRankingRow (sampleAsset "model-c" "C") 3) = Some s ∧
          accuracy (buildRankingRow (sampleAsset "model-c" "C") 3) = Some a ∧
          PrimFloat.leb 0.76 s = true ∧ PrimFloat.leb s 0.88 = true ∧
          PrimFloat.ltb s a = true ∧ PrimFloat.leb a 0.94 = true).
Proof.
  split.
  - apply (buildRankingRow_bounds (sampleAsset "asset-user1-segmentation-model" "S") 0).
    unfold ordinaryId. apply (bool_decide_unpack _). vm_compute. exact I.
  - apply (buildRankingRow_bounds (sampleAsset "model-c" "C") 3).
    unfold ordinaryId. apply (bool_decide_unpack _). vm_compute. exact I.
Defined.

Lemma Some_float_neq (x y : float) :
  PrimFloat.eqb x x = true → PrimFloat.eqb x y = false → Some x ≠ Some y.
Proof. intros Hx Hxy Heq. apply (inj Some) in Heq. by apply (float_neq x y). Qed.

Lemma score_088_is_fraud asset index :
  score (buildRankingRow asset index) = Some 0.88%float →
  id asset = "asset-user1-fraud-api".
Proof.
  destruct (buildRankingRow_cases asset index)
    as [[Hk E]|[[Hp E]|(Hk & _ & E)]].
  - apply scoreMap_Some_rows in E
      as [[_ E]|[[_ E]|[[Hid E]|[_ E]]]]; rewrite E; simpl; intros Hs;
      try done;
      exfalso; revert Hs; by apply Some_float_neq.
  - rewrite E. discriminate.
  - rewrite E.
    destruct (mod_5_cases index) as [Hm|[Hm|[Hm|[Hm|Hm]]]]; rewrite Hm; simpl;
      intros Hs; exfalso; revert Hs; by apply Some_float_neq.
Qed.

(** *** The order of the leaderboard *)

(** Whenever the timer of a run fires, a row of the leaderboard it writes
    has [top = true] exactly if its [rank] is 1; if at least one asset of
    the catalog is selected at that moment, exactly one row has [top = true]
    and it is the first row, and if none is, the leaderboard is empty.  If
    moreover no selected asset has the name of an inherited member as its
    id, the leaderboard is non-increasing in [score], and the rows of equal
    score stand in the order of the rows before sorting. *)
Theorem leaderboard_sorted_one_top_stable (w w' : World) :
  step TimerFires w = Some w' →
  let rows := rankingRows (comp w') in
  let raw := rawRows (selectedAssets (comp w)) in
  (∀ r, r ∈ rows → top r = Some true ↔ rank r = Some 1) ∧
  (selectedAssets (comp w) ≠ [] →
     ∃ r, topRows rows = [r] ∧ head rows = Some r ∧ rank r = Some 1) ∧
  (selectedAssets (comp w) = [] → rows = []) ∧
  (ordinaryAssets (selectedAssets (comp w)) →
     StronglySorted scoreGe rows ∧
     ∀ r, r ∈ raw →
          filter (λ x, tiesWith r x = true) (unranked <$> rows)
          = filter (λ x, tiesWith r x = true) (unranked <$> raw)).
Proof.
  intros Hstep. apply step_TimerFires in Hstep as (-> & _ & _).
  cbv zeta. change (rankingRows _) with (ranked (selectedAssets (comp w))).
  split; [intros r; apply ranked_top_iff|].
  split; [|split; [by intros ->|]].
  - intros Hsel. rewrite ranked_topRows.
    destruct (ranked (selectedAssets (comp w))) as [|r rows] eqn:E.
    + apply (f_equal length) in E. rewrite length_ranked in E.
      by destruct (selectedAssets (comp w)).
    + exists r. split; [done|]. split; [done|].
      by apply (ranked_head (selectedAssets (comp w))); rewrite E.
  - intros Hord. split; [by apply ranked_StronglySorted|].
    intros r. by apply ranked_stable.
Qed.

(** The run of the mixed catalog: the fraud model moves from the last place
    to the first, and the two rows that score 0.82 keep their order. *)
Lemma leaderboard_of_mixed_catalog :
  let w' := {| comp := runRanking_timeout (comp mixedWorld);
               subscriptions := 0; timeouts := 0 |} in
  let rows := rankingRows (comp w') in
  model <$> rawRows (selectedAssets (comp mixedWorld))
    = [Some "Model A"; Some "Segmentation"; Some "Model C"; Some "Fraud API"] ∧
  model <$> rows
    = [Some "Fraud API"; Some "Model A"; Some "Segmentation"; Some "Model C"] ∧
  score <$> rows
    = [Some 0.88; Some 0.87; Some 0.82; Some 0.82]%float ∧
  StronglySorted scoreGe rows ∧
  (∃ r, topRows rows = [r] ∧ head rows = Some r ∧ rank r = Some 1) ∧
  model <$> filter (λ x, tiesWith (rowLiteral 0 "Segmentation" 0.82 0.9 "420ms" "$0.016") x = true)
                   (unranked <$> rows)
    = [Some "Segmentation"; Some "Model C"].
Proof.
  cbv zeta.
  split; [vm_compute; reflexivity|]. split; [vm_compute; reflexivity|].
  split; [vm_compute; reflexivity|].
  destruct (leaderboard_sorted_one_top_stable mixedWorld
              {| comp := runRanking_timeout (comp mixedWorld);
                 subscriptions := 0; timeouts := 0 |})
    as (_ & Htop & _ & Hsorted).
  - reflexivity.
  - destruct Hsorted as [Hsorted Hstable].
    { unfold ordinaryAssets, ordinaryId. apply (bool_decide_unpack _).
      vm_compute. exact I. }
    split; [exact Hsorted|]. split; [apply Htop; vm_compute; discriminate|].
    rewrite Hstable; [vm_compute; reflexivity|].
    vm_compute. repeat first [apply list_elem_of_here | apply list_elem_of_further].
Defined.

(** On every leaderboard written by the timer callback for assets none of
    which has the name of an inherited member as its id, the row marked
    [top] has the highest score: no row scores more than it. *)
Theorem top_row_has_highest_score (w w' : World) (r r' : RankingRow) :
  step TimerFires w = Some w' →
  ordinaryAssets (selectedAssets (comp w)) →
  r ∈ rankingRows (comp w') → top r = Some true →
  r' ∈ rankingRows (comp w') →
  ∃ s s', score r = Some s ∧ score r' = Some s' ∧ PrimFloat.leb s' s = true.
Proof.
  intros Hstep Hord Hr Htop Hr'.
  apply step_TimerFires in Hstep as (Hcomp & _ & _).
  rewrite Hcomp in Hr, Hr'.
  change (rankingRows _) with (ranked (selectedAssets (comp w))) in Hr, Hr'.
  destruct (ranked_knownScore _ r Hord Hr) as (s & Es & _).
  destruct (ranked_knownScore _ r' Hord Hr') as (s' & Es' & _).
  exists s, s'. split; [done|]. split; [done|].
  assert (scoreGe r r') as Hge.
  { apply (ranked_head_highest (selectedAssets (comp w))); [done| |done].
    assert (r ∈ topRows (ranked (selectedAssets (comp w)))) as Hin
      by (by apply list_elem_of_filter).
    rewrite ranked_topRows in Hin.
    destruct (ranked (selectedAssets (comp w))) as [|r0 rows]; simpl in Hin.
    - by apply not_elem_of_nil in Hin.
    - rewrite take_0 in Hin. by apply list_elem_of_singleton in Hin as ->. }
  unfold scoreGe in Hge. by rewrite Es, Es' in Hge.
Qed.

(** The first row of the mixed leaderboard against its second row, which
    stood first before sorting. *)
Lemma top_row_of_mixed_run_scores_highest :
  let w' := {| comp := runRanking_timeout (comp mixedWorld);
               subscriptions := 0; timeouts := 0 |} in
  ∃ r r', rankingRows (comp w') !! 0 = Some r ∧
          rankingRows (comp w') !! 1 = Some r' ∧
          model r = Some "Fraud API" ∧ model r' = Some "Model A" ∧
          ∃ s s', score r = Some s ∧ score r' = Some s'
                  ∧ PrimFloat.leb s' s = true.
Proof.
  cbv zeta. eexists _, _.
  split; [vm_compute; reflexivity|]. split; [vm_compute; reflexivity|].
  split; [reflexivity|]. split; [reflexivity|].
  apply (top_row_has_highest_score mixedWorld
           {| comp := runRanking_timeout (comp mixedWorld);
              subscriptions := 0; timeouts := 0 |}).
  - reflexivity.
  - unfold ordinaryAssets, ordinaryId. apply (bool_decide_unpack _).
    vm_compute. exact I.
  - vm_compute. apply list_elem_of_here.
  - reflexivity.
  - vm_compute. repeat first [apply list_elem_of_here | apply list_elem_of_further].
Defined.

(** Whenever an asset with the id [asset-user1-fraud-api] is among the
    ranked assets, and none of them has the name of an inherited member as
    its id, the first row of the leaderboard scores 0.88, carries
    [top = true], and shows the name of such an asset: nothing outranks the
    fraud model. *)
Theorem fraud_asset_takes_the_top (assets : list MLAsset) (fraud : MLAsset) :
  ordinaryAssets assets →
  fraud ∈ assets → id fraud = "asset-user1-fraud-api" →
  ∃ r winner,
    head (ranked assets) = Some r ∧ score r = Some 0.88%float ∧
    rank r = Some 1 ∧ top r = Some true ∧
    winner ∈ assets ∧ id winner = "asset-user1-fraud-api" ∧
    model r = Some (name winner).
Proof.
  intros Hord Hin Hid.
  apply list_elem_of_lookup in Hin as [index Hindex].
  assert (buildRankingRow fraud index ∈ rawRows assets) as Hraw
    by exact (elem_of_lookup_imap_2
                (λ index asset, buildRankingRow asset index) assets fraud index Hindex).
  rewrite <- (sort_Permutation byScoreDesc) in Hraw.
  apply (list_elem_of_fmap_2 unranked) in Hraw.
  rewrite <- ranked_unranked in Hraw.
  apply list_elem_of_fmap in Hraw as (r' & Hr' & Hr'in).
  destruct (ranked assets) as [|r rows] eqn:E; [by apply not_elem_of_nil in Hr'in|].
  assert (head (ranked assets) = Some r) as Hhead by (by rewrite E).
  assert (r ∈ ranked assets) as Hrin by (rewrite E; left).
  rewrite <- E in Hr'in.
  pose proof (ranked_head_highest assets r r' Hord Hhead Hr'in) as Hle.
  unfold scoreGe in Hle.
  change (score r') with (score (unranked r')) in Hle.
  rewrite <- Hr', (buildRankingRow_fraud fraud index Hid) in Hle.
  destruct (ranked_knownScore assets r Hord Hrin) as (s & Es & Hs).
  rewrite Es in Hle. simpl in Hle.
  assert (s = 0.88%float) as -> by (by apply knownScore_le_088).
  destruct (ranked_inv assets r Hrin) as (winner & k & Hwin & Heq).
  destruct (ranked_head assets r Hhead) as [Hrank Htop].
  assert (score (buildRankingRow winner k) = Some 0.88%float) as Hscore.
  { change (score (buildRankingRow winner k))
      with (score (unranked (buildRankingRow winner k))).
    by rewrite <- Heq. }
  pose proof (score_088_is_fraud winner k Hscore) as Hwid.
  exists r, winner. split; [by rewrite <- E|]. split; [done|].
  split; [done|]. split; [done|]. split; [done|]. split; [done|].
  change (model r) with (model (unranked r)). rewrite Heq. simpl.
  by rewrite (buildRankingRow_fraud winner k Hwid).
Qed.

(** The fraud asset listed last in the mixed catalog. *)
Lemma fraud_tops_the_mixed_catalog :
  ∃ r winner,
    head (ranked mixedCatalog) = Some r ∧ score r = Some 0.88%float ∧
    rank r = Some 1 ∧ top r = Some true ∧
    winner ∈ mixedCatalog ∧ id winner = "asset-user1-fraud-api" ∧
    model r = Some (name winner).
Proof.
  apply (fraud_asset_takes_the_top mixedCatalog
           (sampleAsset "asset-user1-fraud-api" "Fraud API")).
  - unfold ordinaryAssets, ordinaryId. apply (bool_decide_unpack _).
    vm_compute. exact I.
  - repeat first [apply list_elem_of_here | apply list_elem_of_further].
  - reflexivity.
Defined.

(** Up to five assets whose ids are neither keys of the table nor names of
    inherited members are ranked in catalog order: the fallback scores fall
    with the position, so sorting moves nothing. *)
Theorem unknown_assets_rank_in_catalog_order (assets : list MLAsset) :
  Forall (λ asset, (id asset ∉ knownIds) ∧ ordinaryId (id asset)) assets →
  length assets ≤ 5 →
  model <$> ranked assets = Some <$> (name <$> assets) ∧
  score <$> ranked assets = Some <$> take (length assets) fallbackScores ∧
  rank <$> ranked assets = Some <$> seq 1 (length assets).
Proof.
  intros Hall Hlen. split; [|split; [|apply ranked_rank]].
  - destruct assets as [|a0 [|a1 [|a2 [|a3 [|a4 [|a5 rest]]]]]];
      [..|simpl in Hlen; lia];
      repeat (apply Forall_cons in Hall as [[? ?] Hall]);
      unfold ranked, rawRows; cbn [imap compose];
      rewrite ?buildRankingRow_fallback by done; reflexivity.
  - destruct assets as [|a0 [|a1 [|a2 [|a3 [|a4 [|a5 rest]]]]]];
      [..|simpl in Hlen; lia];
      repeat (apply Forall_cons in Hall as [[? ?] Hall]);
      unfold ranked, rawRows; cbn [imap compose];
      rewrite ?buildRankingRow_fallback by done; reflexivity.
Qed.

(** Five assets with unknown ids, the whole cycle of fallback scores. *)
Lemma five_unknown_assets_rank_in_catalog_order :
  let assets := [sampleAsset "m1" "M1"; sampleAsset "m2" "M2";
                 sampleAsset "m3" "M3"; sampleAsset "m4" "M4";
                 sampleAsset "m5" "M5"] in
  model <$> ranked assets
    = [Some "M1"; Some "M2"; Some "M3"; Some "M4"; Some "M5"] ∧
  score <$> ranked assets
    = [Some 0.87; Some 0.85; Some 0.82; Some 0.79; Some 0.76]%float ∧
  rank <$> ranked assets = [Some 1; Some 2; Some 3; Some 4; Some 5].
Proof.
  cbv zeta.
  apply (unknown_assets_rank_in_catalog_order
           [sampleAsset "m1" "M1"; sampleAsset "m2" "M2";
            sampleAsset "m3" "M3"; sampleAsset "m4" "M4";
            sampleAsset "m5" "M5"]).
  - unfold ordinaryId. apply (bool_decide_unpack _). vm_compute. exact I.
  - simpl. lia.
Defined.

(** *** The strings of the fallback rows *)

Lemma to_uint_not_Nil n : Nat.to_uint n ≠ Decimal.Nil.
Proof.
  rewrite <- (DecimalNat.Unsigned.of_to n) at 1.
  rewrite DecimalNat.Unsigned.to_of. unfold Decimal.unorm.
  by destruct (Decimal.nzhead (Nat.to_uint n)).
Qed.

(** Reading the digits of [String(n)] back gives [n]. *)
Lemma toString_round_trip n :
  Nat.of_uint <$> NilZero.uint_of_string (Js.toString n) = Some n.
Proof.
  unfold Js.toString. rewrite NilZero.usu by apply to_uint_not_Nil.
  simpl. by rewrite DecimalNat.Unsigned.of_to.
Qed.

Lemma toString_inj n m : Js.toString n = Js.toString m → n = m.
Proof.
  intros Heq. pose proof (toString_round_trip n) as Hn.
  rewrite Heq, toString_round_trip in Hn. by simplify_eq.
Qed.

Lemma string_of_uint_empty (u : Decimal.uint) :
  String.length (NilEmpty.string_of_uint u) = 0 → u = Decimal.Nil.
Proof. by destruct u. Qed.

Lemma string_of_uint_short (u : Decimal.uint) (k : nat) :
  k ≤ 2 → String.length (NilZero.string_of_uint u) ≤ k → Nat.of_uint u < 10 ^ k.
Proof.
  intros Hk Hlen.
  assert (k = 0 ∨ k = 1 ∨ k = 2) as Hcases by lia. clear Hk.
  destruct u as [|u|u|u|u|u|u|u|u|u|u]; simpl in Hlen;
    [destruct Hcases as [->|[->| ->]]; first [lia | vm_compute; lia]|..];
    (destruct u as [|u|u|u|u|u|u|u|u|u|u]; simpl in Hlen;
     [destruct Hcases as [->|[->| ->]]; first [lia | vm_compute; lia]|..]);
    (assert (k = 2) as -> by lia);
    (assert (u = Decimal.Nil) as -> by (apply string_of_uint_empty; lia));
    vm_compute; lia.
Qed.

Lemma toString_length n :
  (String.length (Js.toString n) ≤ 1 ↔ n < 10) ∧
  (String.length (Js.toString n) ≤ 2 ↔ n < 100).
Proof.
  assert (∀ k, k ≤ 2 → String.length (Js.toString n) ≤ k → n < 10 ^ k) as Hup.
  { intros k Hk Hlen. rewrite <- (DecimalNat.Unsigned.of_to n).
    by apply string_of_uint_short. }
  assert (forallb (λ m, (String.length (Js.toString m) <=? 1) || (10 <=? m))
                  (seq 0 100) = true) as H1 by (by vm_compute).
  assert (forallb (λ m, String.length (Js.toString m) <=? 2) (seq 0 100) = true)
    as H2 by (by vm_compute).
  split; split.
  - apply (Hup 1). lia.
  - intros Hn. assert (n ∈ seq 0 100) as Hin by (apply elem_of_seq; lia).
    pose proof (forallb_elem_of _ _ _ H1 Hin) as Hb. cbv beta in Hb.
    apply orb_true_iff in Hb as [Hb|Hb]; [by apply Nat.leb_le|].
    apply Nat.leb_le in Hb. lia.
  - apply (Hup 2). lia.
  - intros Hn. assert (n ∈ seq 0 100) as Hin by (apply elem_of_seq; lia).
    pose proof (forallb_elem_of _ _ _ H2 Hin) as Hb. by apply Nat.leb_le.
Qed.

(** For ids that are neither keys of the table nor names of inherited
    members, the fallback cost reads as a price with three decimals ("$0.0"
    and two digits, six characters) exactly at the positions below 88; from
    position 88 on the number appended has three digits or more.  Whatever
    the position, the digits after "$0.0" read back as [12 + index], so
    different positions never get the same cost string. *)
Theorem fallback_cost_format (asset other : MLAsset) (index index' : nat) :
  id asset ∉ knownIds → ordinaryId (id asset) →
  id other ∉ knownIds → ordinaryId (id other) →
  let row := buildRankingRow asset index in
  let row' := buildRankingRow other index' in
  cost row = Some ("$0.0" +:+ Js.toString (12 + index)) ∧
  (String.length ("$0.0" +:+ Js.toString (12 + index)) = 6 ↔ index < 88) ∧
  Nat.of_uint <$> NilZero.uint_of_string (Js.toString (12 + index))
    = Some (12 + index) ∧
  (cost row = cost row' → index = index').
Proof.
  intros Hid Hord Hid' Hord'. cbv zeta.
  rewrite (buildRankingRow_fallback asset index Hid Hord),
          (buildRankingRow_fallback other index' Hid' Hord').
  cbv zeta. cbn [cost rowLiteral].
  destruct (toString_length (12 + index)) as [H1 H2].
  split; [done|]. split; [|split; [apply toString_round_trip|]].
  - change (String.length ("$0.0" +:+ Js.toString (12 + index)))
      with (4 + String.length (Js.toString (12 + index))).
    split; intros H; [|].
    + assert (12 + index < 100) by (apply H2; lia). lia.
    + assert (String.length (Js.toString (12 + index)) ≤ 2) as Hle by (apply H2; lia).
      assert (¬ String.length (Js.toString (12 + index)) ≤ 1) by (rewrite H1; lia).
      lia.
  - intros Heq. injection Heq as Heq. apply toString_inj in Heq. lia.
Qed.

(** The last position with two digits and the first with three. *)
Lemma fallback_cost_at_positions_87_and_88 :
  let row := buildRankingRow (sampleAsset "x" "X") 87 in
  let row' := buildRankingRow (sampleAsset "y" "Y") 88 in
  cost row = Some "$0.099" ∧ cost row' = Some "$0.0100" ∧
  (String.length "$0.099" = 6 ↔ 87 < 88) ∧
  (cost row = cost row' → 87 = 88).
Proof.
  cbv zeta. split; [vm_compute; reflexivity|]. split; [vm_compute; reflexivity|].
  destruct (fallback_cost_format (sampleAsset "x" "X") (sampleAsset "y" "Y") 87 88)
    as (_ & Hlen & _ & Hinj).
  - apply (bool_decide_unpack _). vm_compute. exact I.
  - unfold ordinaryId. apply (bool_decide_unpack _). vm_compute. exact I.
  - apply (bool_decide_unpack _). vm_compute. exact I.
  - unfold ordinaryId. apply (bool_decide_unpack _). vm_compute. exact I.
  - split; [exact Hlen|exact Hinj].
Defined.
